(** * getyotd: the monthly calendar fetcher and launcher

    A shallow embedding of [src/getyotd.py] ([get_calendar] and
    [open_calendar]) together with the properties stated about them.

    The script talks to three ambient resources: the wall clock, the
    filesystem and the network.  The clock reading, the HTTP server and the
    HTML parser are gathered in an environment record; the filesystem and the
    trace of outbound requests form the mutable world that every operation
    threads through.  Python exceptions are values of type [exn]; a raised
    exception keeps the world as it was at the point of the [raise]. *)

From Stdlib Require Import ZArith Lia Ascii String DecimalString DecimalNat.
From stdpp Require Import base option list gmap strings.

Local Open Scope string_scope.

(* ===================================================================== *)
(** ** Text: [str.lower], [in], [str(int)] *)

Module Text.

(** [str.lower] on the ASCII range: the 26 capitals are shifted by 32. *)
Definition lower_char (c : ascii) : ascii :=
  let n := nat_of_ascii c in
  if (65 <=? n)%nat && (n <=? 90)%nat then ascii_of_nat (n + 32) else c.

Fixpoint lower (s : string) : string :=
  match s with
  | EmptyString => EmptyString
  | String c r => String (lower_char c) (lower r)
  end.

(** [needle in hay] on Python strings: [needle] occurs at some offset. *)
Fixpoint str_in (needle hay : string) : bool :=
  String.prefix needle hay ||
  match hay with
  | EmptyString => false
  | String _ r => str_in needle r
  end.

(** [str(n)] for a Python [int]. *)
Definition str_int (z : Z) : string := NilZero.string_of_int (Z.to_int z).

Definition is_digit (c : ascii) : bool :=
  let n := nat_of_ascii c in (48 <=? n)%nat && (n <=? 57)%nat.

Fixpoint all_digits (s : string) : bool :=
  match s with
  | EmptyString => true
  | String c r => is_digit c && all_digits r
  end.

(** The line feed of the [\n] escape in the two [ConnectionError] messages. *)
Definition LF : string := String (ascii_of_nat 10) EmptyString.

End Text.

(* ===================================================================== *)
(** ** The clock: [datetime.today().strftime('%Y%B')] *)

Module Clock.

Inductive month :=
  | January | February | March | April | May | June
  | July | August | September | October | November | December.

(** The fields of a [datetime] that the script can observe. *)
Record datetime := mk_datetime { year : nat; mon : month; day : nat }.

(** [%B] in the C locale, which the interpreter runs in as the script never
    calls [locale.setlocale]. *)
Definition month_name (m : month) : string :=
  match m with
  | January => "January" | February => "February" | March => "March"
  | April => "April" | May => "May" | June => "June"
  | July => "July" | August => "August" | September => "September"
  | October => "October" | November => "November" | December => "December"
  end.

(** [%Y]: the year in decimal, as the C library renders it (no zero-fill:
    [999], [2013]); a year from 1000 on has its four digits. *)
Definition fmt_Y (d : datetime) : string :=
  NilEmpty.string_of_uint (Nat.to_uint (year d)).

Definition fmt_B (d : datetime) : string := month_name (mon d).

(** The directives of [strftime] that occur in the script; any other
    character of the format is copied. *)
Fixpoint strftime (d : datetime) (format : string) : string :=
  match format with
  | EmptyString => EmptyString
  | String c r =>
      match c, r with
      | "%"%char, String "Y"%char r' => fmt_Y d ++ strftime d r'
      | "%"%char, String "B"%char r' => fmt_B d ++ strftime d r'
      | _, _ => String c (strftime d r)
      end
  end.

End Clock.

(* ===================================================================== *)
(** ** Python exceptions and results *)

(** The exception classes that the two functions, or the library calls they
    make, can raise.  [ValueError], [ConnectionError] and [FileNotFoundError]
    carry the message the script builds; the [OSError] subclasses come from
    the filesystem calls, [RequestException] from [requests.get] itself (no
    response at all), [WebbrowserError] is [webbrowser.Error]. *)
Inductive exn :=
  | ValueError (msg : string)
  | ConnectionError (msg : string)
  | KeyError (key : string)
  | FileNotFoundError (msg : string)
  | FileExistsError
  | NotADirectoryError
  | IsADirectoryError
  | RequestException
  | WebbrowserError (msg : string).

Inductive result (A : Type) :=
  | Ok (a : A)
  | Raise (e : exn).
Arguments Ok {A} a.
Arguments Raise {A} e.

(* ===================================================================== *)
(** ** The filesystem *)

(** The tree holds directories and regular files only, and every call on it
    is permitted: symbolic links, access rights and the limits on name
    length are outside this model, and so are the failures they cause
    ([PermissionError], [OSError] for a name too long, a link followed by
    [open]). *)
Module Fs.

(** A resolved [pathlib.Path], as its components below the root of the
    tree. *)
Definition path := list string.

(** [dir / name] for a one-component [name]. *)
Definition join (dir : path) (name : string) : path := (dir ++ [name])%list.



#[warnings="-register-all"]
Inductive node :=
  | File (content : list Byte.byte)
  | Dir (entries : gmap string node).

Fixpoint stat (n : node) (p : path) : option node :=
  match p with
  | [] => Some n
  | c :: p' =>
      match n with
      | File _ => None
      | Dir es => match es !! c with
                  | Some ch => stat ch p'
                  | None => None
                  end
      end
  end.

(** [Path.exists()]. *)
Definition exists_ (root : node) (p : path) : bool :=
  match stat root p with Some _ => true | None => false end.

(** [Path.mkdir(exist_ok=True, parents=True)]: missing components are
    created; an existing directory is left as it is; a regular file in the
    way raises. *)
Fixpoint mkdir (n : node) (p : path) : result node :=
  match p with
  | [] => match n with
          | Dir _ => Ok n
          | File _ => Raise FileExistsError
          end
  | c :: p' =>
      match n with
      | File _ => Raise NotADirectoryError
      | Dir es =>
          match mkdir (default (Dir ∅) (es !! c)) p' with
          | Ok ch' => Ok (Dir (<[c := ch']> es))
          | Raise e => Raise e
          end
      end
  end.

(** [Path.unlink()]: removes a regular file. *)
Fixpoint unlink (n : node) (p : path) : result node :=
  match p with
  | [] => Raise IsADirectoryError
  | c :: p' =>
      match n with
      | File _ => Raise NotADirectoryError
      | Dir es =>
          match es !! c with
          | None => Raise (FileNotFoundError c)
          | Some ch =>
              match p' with
              | [] => match ch with
                      | File _ => Ok (Dir (delete c es))
                      | Dir _ => Raise IsADirectoryError
                      end
              | _ :: _ => match unlink ch p' with
                          | Ok ch' => Ok (Dir (<[c := ch']> es))
                          | Raise e => Raise e
                          end
              end
          end
      end
  end.

(** [with open(p, 'wb') as f: f.write(data)]: the file is created or
    truncated and then holds exactly [data]. *)
Fixpoint write_bytes (n : node) (p : path) (data : list Byte.byte)
  : result node :=
  match p with
  | [] => Raise IsADirectoryError
  | c :: p' =>
      match n with
      | File _ => Raise NotADirectoryError
      | Dir es =>
          match p' with
          | [] => match es !! c with
                  | Some (Dir _) => Raise IsADirectoryError
                  | _ => Ok (Dir (<[c := File data]> es))
                  end
          | _ :: _ =>
              match es !! c with
              | None => Raise (FileNotFoundError c)
              | Some ch =>
                  match write_bytes ch p' data with
                  | Ok ch' => Ok (Dir (<[c := ch']> es))
                  | Raise e => Raise e
                  end
              end
          end
      end
  end.

End Fs.

(* ===================================================================== *)
(** ** The external collaborators: HTTP, HTML, the browser registry *)

(** What the script reads of a [requests.Response]. *)
Record response := mk_response {
  status_code : Z;
  content : list Byte.byte
}.

(** What the script reads of a BeautifulSoup [Tag]: its text and its
    attribute dictionary. *)
Record tag := mk_tag {
  text : string;
  attrs : gmap string string
}.

(** A [webbrowser] controller: its name and whether a request to open a URL
    is accepted ([open_new] returns a [bool]). *)
Record browser := mk_browser {
  browser_name : string;
  accepts : string -> bool
}.

(** The surroundings of a run, fixed while it lasts.
    - [today]: the reading of [datetime.today()];
    - [http_get]: the response a GET of a URL receives, [None] when
      [requests.get] raises instead of returning;
    - [find_all_a]: [BeautifulSoup(body, 'html.parser').find_all('a')];
    - [registry]: the controller [webbrowser.get] locates for a name
      ([None] as argument: the platform default). *)
Record env := mk_env {
  today : Clock.datetime;
  http_get : string -> option response;
  find_all_a : list Byte.byte -> list tag;
  registry : option string -> option browser
}.

(** The mutable world: the file tree, the GET requests issued so far and the
    URLs handed to a browser so far (both oldest first). *)
Record world := mk_world {
  fs : Fs.node;
  requests : list string;
  launched : list (string * string)
}.

Definition set_fs (w : world) (r : Fs.node) : world :=
  mk_world r (requests w) (launched w).

(* ===================================================================== *)
(** ** A state-and-exception monad over the world *)

Definition M (A : Type) : Type := world -> world * result A.

Definition ret {A} (a : A) : M A := fun w => (w, Ok a).

Definition raise {A} (e : exn) : M A := fun w => (w, Raise e).

Definition bind {A B} (c : M A) (k : A -> M B) : M B :=
  fun w => match c w with
           | (w', Ok a) => k a w'
           | (w', Raise e) => (w', Raise e)
           end.

Notation "x <- c ;; k" := (bind c (fun x => k))
  (at level 100, c at next level, right associativity).
Notation "c ;;; k" := (bind c (fun _ => k))
  (at level 100, right associativity).

(** A filesystem call: on success the tree is replaced, on failure it is
    left as it was. *)
Definition fs_call (f : Fs.node -> result Fs.node) : M unit :=
  fun w => match f (fs w) with
           | Ok r => (set_fs w r, Ok tt)
           | Raise e => (w, Raise e)
           end.

Definition path_mkdir (p : Fs.path) : M unit :=
  fs_call (fun r => Fs.mkdir r p).

Definition path_unlink (p : Fs.path) : M unit :=
  fs_call (fun r => Fs.unlink r p).

Definition open_wb_write (p : Fs.path) (data : list Byte.byte) : M unit :=
  fs_call (fun r => Fs.write_bytes r p data).

Definition path_exists (p : Fs.path) : M bool :=
  fun w => (w, Ok (Fs.exists_ (fs w) p)).

(** [requests.get(url)]: the request goes out, then a response comes back
    or the call raises. *)
Definition requests_get (E : env) (url : string) : M response :=
  fun w =>
    let w' := mk_world (fs w) (requests w ++ [url])%list (launched w) in
    match http_get E url with
    | Some r => (w', Ok r)
    | None => (w', Raise RequestException)
    end.

(** [webbrowser.get(using=using)]: returns a controller or raises
    [webbrowser.Error]; it has no other outcome. *)
Definition webbrowser_get (E : env) (using_ : option string) : M browser :=
  fun w => match registry E using_ with
           | Some b => (w, Ok b)
           | None => (w, Raise (WebbrowserError "could not locate runnable browser"))
           end.

(** [browser.open_new(url)]. *)
Definition open_new (b : browser) (url : string) : M bool :=
  fun w => (mk_world (fs w) (requests w) (launched w ++ [(browser_name b, url)])%list,
            Ok (accepts b url)).

(* ===================================================================== *)
(** ** The script *)

Import Text Clock.

(** [str(path)] of a resolved path, which is also [str(path.resolve())]:
    [/] for the root, [/a/b] for the components [a], [b]. *)
Definition path_str (p : Fs.path) : string :=
  match p with
  | [] => "/"
  | _ :: _ => foldr (fun c acc => "/" ++ c ++ acc) "" p
  end.

(** Truth value of an optional string: [None] and [''] are falsy. *)
Definition truthy (s : option string) : bool :=
  match s with
  | None | Some "" => false
  | Some _ => true
  end.

(** [f"{s}"] for an optional string. *)
Definition str_opt (s : option string) : string := default "None" s.

(** Truth value of a controller object: its classes define neither
    [__bool__] nor [__len__]. *)
Definition truthy_browser (b : browser) : bool := true.

Definition search_str : string := "Click here to Download the Free PDF".

(** [[a['href'] for a in links if search_str in a.text]]: the subscript is
    evaluated for each anchor that passes the filter, in page order, and
    raises [KeyError] where the attribute is missing. *)
Fixpoint dl_links_of (links : list tag) : result (list string) :=
  match links with
  | [] => Ok []
  | a :: rest =>
      if str_in search_str (text a) then
        match attrs a !! "href" with
        | None => Raise (KeyError "href")
        | Some href =>
            match dl_links_of rest with
            | Ok hrefs => Ok (href :: hrefs)
            | Raise e => Raise e
            end
        end
      else dl_links_of rest
  end.

Definition lift {A} (r : result A) : M A := fun w => (w, r).

(** The cache key of a date and the file name built from it (line 33):
    [datetime.today().strftime('%Y%B')], lower-cased, then ['.pdf']. *)
Definition cache_key (d : datetime) : string := lower (strftime d "%Y%B").

Definition cache_file_name (d : datetime) : string := cache_key d ++ ".pdf".

Definition page_error (page_url : string) (status : Z) : exn :=
  ConnectionError ("Failed to retrieve calendar from '" ++ page_url ++ "'"
                   ++ LF ++ "Status code: " ++ str_int status).

Definition pdf_error (pdf_url : string) (status : Z) : exn :=
  ConnectionError ("Failed to download PDF from '" ++ pdf_url ++ "'"
                   ++ LF ++ "Status code: " ++ str_int status).

Definition no_links_error : exn :=
  ValueError ("No download links found for search string '" ++ search_str ++ "'").

Definition multiple_links_error : exn :=
  ValueError ("Multiple download links found for search string '" ++ search_str ++ "'").

Definition no_url_error : exn := ValueError "No page URL provided.".

(** [get_calendar(dir, page_url, force_dl)], lines 28 to 65.  The first
    reading of the clock (line 32) is bound to a name that is never used. *)
Definition get_calendar (E : env) (dir : Fs.path) (page_url : option string)
    (force_dl : bool) : M Fs.path :=
  path_mkdir dir ;;;
  let format := "%Y%B" in
  let file := Fs.join dir (lower (strftime (today E) format) ++ ".pdf") in
  (if force_dl
   then (there <- path_exists file ;;
         if there then path_unlink file else ret tt)
   else ret tt) ;;;
  there <- path_exists file ;;
  if there then ret file else
  if negb (truthy page_url) then raise no_url_error else
  let page_url := str_opt page_url in
  response <- requests_get E page_url ;;
  if negb (status_code response =? 200)%Z
  then raise (page_error page_url (status_code response)) else
  let links := find_all_a E (content response) in
  dl_links <- lift (dl_links_of links) ;;
  match dl_links with
  | [] => raise no_links_error
  | [pdf_url] =>
      pdf_response <- requests_get E pdf_url ;;
      if negb (status_code pdf_response =? 200)%Z
      then raise (pdf_error pdf_url (status_code pdf_response)) else
      open_wb_write file (content pdf_response) ;;;
      ret file
  | _ :: _ :: _ => raise multiple_links_error
  end.

(** [open_calendar(file, using)], lines 79 to 87.  The value of
    [open_new] is dropped: the function returns [None] either way. *)
Definition open_calendar (E : env) (file : Fs.path) (using_ : option string)
  : M unit :=
  there <- path_exists file ;;
  if negb there
  then raise (FileNotFoundError ("File '" ++ path_str file ++ "' does not exist."))
  else
  browser <- webbrowser_get E using_ ;;
  if negb (truthy_browser browser)
  then raise (ValueError ("No web browser found with name '" ++ str_opt using_ ++ "'"))
  else
  open_new browser ("file://" ++ path_str file) ;;;
  ret tt.

(* ===================================================================== *)
(** ** The fetcher: names used in the statements *)

(** The path of this month's artifact below [dir] (line 33). *)
Definition artifact (E : env) (dir : Fs.path) : Fs.path :=
  Fs.join dir (lower (strftime (today E) "%Y%B") ++ ".pdf").

(** The exceptions raised between line 41 and line 61: by the script itself
    ([ValueError], [ConnectionError]), by the subscript [a['href']] and by
    [requests.get]. *)
Definition raised_while_fetching (e : exn) : bool :=
  match e with
  | ValueError _ | ConnectionError _ | KeyError _ | RequestException => true
  | _ => false
  end.

(** The world [w] with the tree replaced by [tree] and the requests [urls]
    added to the trace. *)
Definition sent (w : world) (urls : list string) (tree : Fs.node) : world :=
  mk_world tree (requests w ++ urls) (launched w).

(** The exception classes behind the four conditions of the error
    taxonomy: [ValueError] (invalid argument, no link, several links),
    [ConnectionError] and [FileNotFoundError]. *)
Definition in_taxonomy (e : exn) : bool :=
  match e with
  | ValueError _ | ConnectionError _ | FileNotFoundError _ => true
  | _ => false
  end.

(** The filter of line 52. *)
Definition matches (a : tag) : bool := str_in search_str (text a).

Ltac fold_artifact :=
  repeat match goal with
    | |- context [Fs.join ?d (lower (strftime (today ?E) "%Y%B") ++ ".pdf")] =>
        change (Fs.join d (lower (strftime (today E) "%Y%B") ++ ".pdf"))
          with (artifact E d)
    | H : context [Fs.join ?d (lower (strftime (today ?E) "%Y%B") ++ ".pdf")]
      |- _ =>
        change (Fs.join d (lower (strftime (today E) "%Y%B") ++ ".pdf"))
          with (artifact E d) in H
    end.

(** Unfold a run of the script, keeping the artifact path folded. *)
Ltac run :=
  unfold get_calendar, open_calendar, bind, ret, raise, lift,
    path_mkdir, path_unlink, open_wb_write, fs_call, path_exists,
    requests_get, webbrowser_get, open_new, set_fs in *;
  fold_artifact;
  cbn [fs requests launched] in *.

(* ===================================================================== *)
(** ** A concrete run, used to exercise the statements below *)

Module Sample.

Definition page_url : string := "https://yogawithadriene.com/calendar/".
Definition pdf_url : string := "https://example.com/cal.pdf".
Definition page_body : list Byte.byte := list_byte_of_string "<html>".
Definition pdf_body : list Byte.byte := list_byte_of_string "%PDF-1.4...".

Definition anchor (href : option string) : tag :=
  mk_tag "Click here to Download the Free PDF!"
         (match href with Some h => {[ "href" := h ]} | None => ∅ end).

Definition other_anchor : tag :=
  mk_tag "Home" {[ "href" := "https://yogawithadriene.com/" ]}.

Definition firefox : browser := mk_browser "firefox" (fun _ => true).

(** A server answering the page with [page_status] and the PDF with
    [pdf_status], and a parser finding [anchors] in the page. *)
Definition server (page_status pdf_status : Z) (anchors : list tag) : env :=
  mk_env (mk_datetime 2024 June 17)
    (fun url => if String.eqb url page_url
                then Some (mk_response page_status page_body)
                else if String.eqb url pdf_url
                then Some (mk_response pdf_status pdf_body)
                else None)
    (fun body => anchors)
    (fun name => match name with
                 | Some "firefox" => Some firefox
                 | _ => None
                 end).

Definition good : env := server 200 200 [other_anchor; anchor (Some pdf_url)].

Definition dir : Fs.path := ["home"; "calendars"].

(** A tree with nothing in it. *)
Definition empty : world := mk_world (Fs.Dir ∅) [] [].

(** A tree where an earlier run has left this month's file. *)
Definition cached : world :=
  mk_world
    (Fs.Dir {[ "home" := Fs.Dir {[ "calendars" :=
       Fs.Dir {[ "2024june.pdf" := Fs.File pdf_body ]} ]} ]})
    [] [].

End Sample.

(* ===================================================================== *)
(** ** The entry point *)

(** The namespace [parser.parse_args()] returns (lines 91 to 111):
    [--dir] is a string or [None], [--using] a string, [--force-dl] a
    flag. *)
Record namespace := mk_namespace {
  arg_dir : option Fs.path;
  arg_using : string;
  arg_force_dl : bool
}.

(** The namespace of a command line without options: the declared
    defaults. *)
Definition no_options : namespace := mk_namespace None "firefox" false.

(** The page the entry point scrapes (line 118). *)
Definition calendar_page : string := "https://yogawithadriene.com/calendar/".

(** Lines 113 to 125, with [here] for [Path(__file__).parent]. *)
Definition main (E : env) (here : Fs.path) (args : namespace) : M unit :=
  let dir := match arg_dir args with
             | None => Fs.join here ".calendars"
             | Some d => d
             end in
  file_path <- get_calendar E dir (Some calendar_page) (arg_force_dl args) ;;
  open_calendar E file_path (Some (arg_using args)).

(** The directory the entry point hands to [get_calendar]. *)
Definition target_dir (here : Fs.path) (args : namespace) : Fs.path :=
  match arg_dir args with
  | None => Fs.join here ".calendars"
  | Some d => d
  end.

(** The two ways a call gets past the cache check of line 38, with the tree
    [r] it goes on with: this month's file is absent and the directory was
    made, or it is a regular file that [force_dl] has deleted. *)
Definition past_cache_check (E : env) (dir : Fs.path) (force_dl : bool)
    (w : world) (r : Fs.node) : Prop :=
  (Fs.exists_ (fs w) (artifact E dir) = false /\
   Fs.mkdir (fs w) dir = Ok r) \/
  (force_dl = true /\
   exists b, Fs.stat (fs w) (artifact E dir) = Some (Fs.File b) /\
             Fs.unlink (fs w) (artifact E dir) = Ok r).

(** The twelve month names as the cache key spells them. *)
Definition lowercase_month_name (m : month) : string :=
  match m with
  | January => "january" | February => "february" | March => "march"
  | April => "april" | May => "may" | June => "june"
  | July => "july" | August => "august" | September => "september"
  | October => "october" | November => "november" | December => "december"
  end.

(** The characters a cache key is made of. *)
Definition is_lower_letter (c : ascii) : bool :=
  let n := nat_of_ascii c in (97 <=? n)%nat && (n <=? 122)%nat.

Fixpoint all_chars (f : ascii -> bool) (s : string) : bool :=
  match s with
  | EmptyString => true
  | String c r => f c && all_chars f r
  end.

(** Further trees and surroundings to run the script in. *)
Module Scene.

(** The calendar directory holds last month's file only. *)
Definition last_month : world :=
  mk_world
    (Fs.Dir {[ "home" := Fs.Dir {[ "calendars" :=
       Fs.Dir {[ "2024may.pdf" := Fs.File (list_byte_of_string "may") ]} ]} ]})
    [] [].

(** This month's file is there with stale content. *)
Definition stale : world :=
  mk_world
    (Fs.Dir {[ "home" := Fs.Dir {[ "calendars" :=
       Fs.Dir {[ "2024june.pdf" := Fs.File (list_byte_of_string "old") ]} ]} ]})
    [] [].

(** A regular file sits where the calendar directory should be. *)
Definition dir_is_file : world :=
  mk_world
    (Fs.Dir {[ "home" := Fs.Dir {[ "calendars" :=
       Fs.File (list_byte_of_string "notes") ]} ]})
    [] [].

(** A directory sits where this month's file should be. *)
Definition artifact_is_dir : world :=
  mk_world
    (Fs.Dir {[ "home" := Fs.Dir {[ "calendars" :=
       Fs.Dir {[ "2024june.pdf" := Fs.Dir ∅ ]} ]} ]})
    [] [].

(** A controller whose [open_new] answers [False]. *)
Definition refusing : browser := mk_browser "firefox" (fun _ => false).

(** The surroundings of [Sample.good] where firefox refuses to open. *)
Definition good_refusing : env :=
  mk_env (today Sample.good) (http_get Sample.good) (find_all_a Sample.good)
    (fun name => match name with
                 | Some "firefox" => Some refusing
                 | _ => None
                 end).

(** The directory the script file lies in. *)
Definition here : Fs.path := ["opt"; "ywa"].

(** An earlier run of the entry point has left this month's file. *)
Definition installed : world :=
  mk_world
    (Fs.Dir {[ "opt" := Fs.Dir {[ "ywa" := Fs.Dir {[ ".calendars" :=
       Fs.Dir {[ "2024june.pdf" := Fs.File Sample.pdf_body ]} ]} ]} ]})
    [] [].

End Scene.

(* ===================================================================== *)
(** ** Facts about the filesystem *)

Section fs_facts.
Implicit Types (n m : Fs.node) (p q : Fs.path) (c : string).

Lemma stat_file_below (b : list Byte.byte) c q :
  Fs.stat (Fs.File b) (c :: q) = None.
Proof. reflexivity. Qed.

Lemma stat_empty_below c q : Fs.stat (Fs.Dir ∅) (c :: q) = None.
Proof. cbn. by rewrite lookup_empty. Qed.

Lemma stat_app n p q :
  Fs.stat n (p ++ q)%list = Fs.stat n p ≫= fun m => Fs.stat m q.
Proof.
  revert n. induction p as [|a p IH]; intros n; [done|].
  destruct n as [b|es]; [done|]. cbn.
  destruct (es !! a) as [ch|]; [apply IH | done].
Qed.

(** Whatever lies below [p], [p] itself is then a directory. *)
Lemma stat_parent n p c m :
  Fs.stat n (Fs.join p c) = Some m ->
  exists es, Fs.stat n p = Some (Fs.Dir es).
Proof.
  unfold Fs.join. rewrite stat_app.
  destruct (Fs.stat n p) as [[b|es]|]; cbn; [done| |done].
  intros _. by exists es.
Qed.

(** [mkdir] on a directory that is there changes nothing. *)
Lemma mkdir_present n p es :
  Fs.stat n p = Some (Fs.Dir es) -> Fs.mkdir n p = Ok n.
Proof.
  revert n. induction p as [|a p IH]; intros n; cbn.
  - by intros [= ->].
  - destruct n as [b|fs0]; [done|].
    destruct (fs0 !! a) as [ch|] eqn:Ha; [|done].
    intros Hch. cbn. rewrite (IH _ Hch).
    by rewrite insert_id.
Qed.

(** A successful [mkdir] leaves a directory at [p]. *)
Lemma mkdir_is_dir n p n' :
  Fs.mkdir n p = Ok n' -> exists es, Fs.stat n' p = Some (Fs.Dir es).
Proof.
  revert n n'. induction p as [|a p IH]; intros n n'; cbn.
  - destruct n as [b|es]; [done|]. intros [= <-]. by exists es.
  - destruct n as [b|es]; [done|].
    destruct (Fs.mkdir (default (Fs.Dir ∅) (es !! a)) p) as [ch'|e] eqn:Hm;
      [|done].
    intros [= <-]. cbn. rewrite lookup_insert_eq. eauto.
Qed.

(** [mkdir] does not touch what lies strictly below [p]. *)
Lemma mkdir_below n p n' c q :
  Fs.mkdir n p = Ok n' ->
  Fs.stat n' (p ++ c :: q)%list = Fs.stat n (p ++ c :: q)%list.
Proof.
  revert n n'. induction p as [|a p IH]; intros n n'; cbn.
  - destruct n as [b|es]; [done|]. by intros [= <-].
  - destruct n as [b|es]; [done|].
    destruct (Fs.mkdir (default (Fs.Dir ∅) (es !! a)) p) as [ch'|e] eqn:Hm;
      [|done].
    intros [= <-]. cbn. rewrite lookup_insert_eq.
    rewrite (IH _ _ Hm).
    destruct (es !! a) as [ch|]; cbn; [done|].
    destruct p; apply stat_empty_below.
Qed.

Lemma stat_cons es a p :
  Fs.stat (Fs.Dir es) (a :: p) =
  match es !! a with Some ch => Fs.stat ch p | None => None end.
Proof. reflexivity. Qed.

Lemma unlink_cons2 es a a' p :
  Fs.unlink (Fs.Dir es) (a :: a' :: p) =
  match es !! a with
  | None => Raise (FileNotFoundError a)
  | Some ch => match Fs.unlink ch (a' :: p) with
               | Ok ch' => Ok (Fs.Dir (<[a := ch']> es))
               | Raise e => Raise e
               end
  end.
Proof. reflexivity. Qed.

Lemma write_bytes_cons2 es a a' p d :
  Fs.write_bytes (Fs.Dir es) (a :: a' :: p) d =
  match es !! a with
  | None => Raise (FileNotFoundError a)
  | Some ch => match Fs.write_bytes ch (a' :: p) d with
               | Ok ch' => Ok (Fs.Dir (<[a := ch']> es))
               | Raise e => Raise e
               end
  end.
Proof. reflexivity. Qed.

(** [unlink] of a regular file succeeds and the path is gone. *)
Lemma unlink_file n a p b :
  Fs.stat n (a :: p) = Some (Fs.File b) ->
  exists n', Fs.unlink n (a :: p) = Ok n' /\ Fs.stat n' (a :: p) = None.
Proof.
  revert n a. induction p as [|a' p IH]; intros n a.
  - destruct n as [b0|es]; [done|]. cbn.
    destruct (es !! a) as [ch|] eqn:Ha; [|done].
    intros [= ->]. eexists; split; [done|].
    cbn. by rewrite lookup_delete_eq.
  - destruct n as [b0|es]; [done|].
    rewrite stat_cons, unlink_cons2.
    destruct (es !! a) as [ch|] eqn:Ha; [|done].
    intros Hch. destruct (IH _ _ Hch) as (ch' & -> & Hgone).
    eexists; split; [done|].
    by rewrite stat_cons, lookup_insert_eq.
Qed.

(** After a successful write the path holds exactly the bytes written. *)
Lemma write_bytes_stat n p d n' :
  Fs.write_bytes n p d = Ok n' -> Fs.stat n' p = Some (Fs.File d).
Proof.
  revert n n'. induction p as [|a p IH]; intros n n'; [done|].
  destruct n as [b0|es]; [done|].
  destruct p as [|a' p].
  - cbn. destruct (es !! a) as [[b1|es1]|]; try done;
      intros [= <-]; cbn; by rewrite lookup_insert_eq.
  - rewrite write_bytes_cons2.
    destruct (es !! a) as [ch|]; [|done].
    destruct (Fs.write_bytes ch (a' :: p) d) as [ch'|e] eqn:Hw; [|done].
    intros [= <-].
    rewrite stat_cons, lookup_insert_eq. by apply IH with ch.
Qed.

(** Writing a new name into a directory that is there succeeds. *)
Lemma write_bytes_fresh n p c d es :
  Fs.stat n p = Some (Fs.Dir es) ->
  Fs.stat n (Fs.join p c) = None ->
  exists n', Fs.write_bytes n (Fs.join p c) d = Ok n'.
Proof.
  unfold Fs.join. revert n. induction p as [|a p IH]; intros n.
  - cbn. intros [= ->]. destruct (es !! c) as [ch|]; [done|]. eauto.
  - destruct n as [b0|es0]; [done|].
    assert (Hne : exists a' q, (p ++ [c])%list = a' :: q)
      by (destruct p; cbn; eauto).
    destruct Hne as (a' & q & Hq).
    change ((a :: p) ++ [c])%list with (a :: (p ++ [c]))%list.
    rewrite !stat_cons. destruct (es0 !! a) as [ch|] eqn:Ha; [|done].
    intros Hdir Hnone. destruct (IH _ Hdir Hnone) as (ch' & Hw).
    exists (Fs.Dir (<[a := ch']> es0)).
    rewrite Hq in *. by rewrite write_bytes_cons2, Ha, Hw.
Qed.

(** The filesystem calls raise [OSError]s only. *)
Lemma mkdir_raises n p e :
  Fs.mkdir n p = Raise e -> raised_while_fetching e = false.
Proof.
  revert n. induction p as [|a p IH]; intros [b|es]; cbn;
    try by intros [= <-].
  destruct (Fs.mkdir (default (Fs.Dir ∅) (es !! a)) p) eqn:Hm; [done|].
  intros [= <-]. eauto.
Qed.

Lemma unlink_raises n p e :
  Fs.unlink n p = Raise e -> raised_while_fetching e = false.
Proof.
  revert n. induction p as [|a p IH]; intros [b|es];
    try by intros [= <-].
  destruct p as [|a' p].
  - cbn. destruct (es !! a) as [[?|?]|]; by intros [= <-].
  - rewrite unlink_cons2. destruct (es !! a) as [ch|]; [|by intros [= <-]].
    destruct (Fs.unlink ch (a' :: p)) eqn:Hu; [done|].
    intros [= <-]. eauto.
Qed.

Lemma write_bytes_raises n p d e :
  Fs.write_bytes n p d = Raise e -> raised_while_fetching e = false.
Proof.
  revert n. induction p as [|a p IH]; intros [b|es];
    try by intros [= <-].
  destruct p as [|a' p].
  - cbn. destruct (es !! a) as [[?|?]|]; by intros [= <-].
  - rewrite write_bytes_cons2.
    destruct (es !! a) as [ch|]; [|by intros [= <-]].
    destruct (Fs.write_bytes ch (a' :: p) d) eqn:Hu; [done|].
    intros [= <-]. eauto.
Qed.

End fs_facts.

(* ===================================================================== *)
(** ** Facts about text and the cache key *)

Section text_facts.
Implicit Types (s t : string) (u : Decimal.uint).

Lemma append_nil t : "" ++ t = t.
Proof. reflexivity. Qed.

Lemma append_cons c s t : String c s ++ t = String c (s ++ t).
Proof. reflexivity. Qed.

Lemma append_nil_r s : s ++ "" = s.
Proof.
  induction s as [|c s IH]; [done|]. by rewrite append_cons, IH.
Qed.

Lemma append_assoc s t (v : string) : (s ++ t) ++ v = s ++ (t ++ v).
Proof.
  induction s as [|c s IH]; [done|]. by rewrite !append_cons, IH.
Qed.

Lemma prefix_spec s t :
  String.prefix s t = true <-> exists post, t = s ++ post.
Proof.
  revert t. induction s as [|c s IH]; intros t.
  - split; [intros _; by exists t | by destruct t].
  - destruct t as [|c' t]; [split; [done | by intros [? ?]]|].
    cbn [String.prefix].
    destruct (Ascii.ascii_dec c c') as [->|Hne].
    + rewrite IH. split; intros [post E]; exists post;
        rewrite append_cons in *; congruence.
    + split; [done | intros [post E]; rewrite append_cons in E; congruence].
Qed.

(** [str_in] is occurrence as a substring. *)
Lemma str_in_spec s t :
  str_in s t = true <-> exists pre post, t = pre ++ s ++ post.
Proof.
  induction t as [|c t IH]; cbn [str_in];
    rewrite orb_true_iff, prefix_spec.
  - split.
    + intros [[post E]|?]; [|done]. by exists "", post.
    + intros (pre & post & E). left. exists post.
      destruct pre; [done | discriminate].
  - rewrite IH. split.
    + intros [[post E]|(pre & post & E)].
      * by exists "", post.
      * exists (String c pre), post. by rewrite append_cons, E.
    + intros (pre & post & E). destruct pre as [|c' pre].
      * left. by exists post.
      * right. exists pre, post. rewrite append_cons in E. congruence.
Qed.

Lemma lower_app s t : lower (s ++ t) = lower s ++ lower t.
Proof.
  induction s as [|c s IH]; [done|].
  rewrite append_cons. cbn [lower]. by rewrite IH.
Qed.

Lemma string_of_uint_digits u :
  all_digits (NilEmpty.string_of_uint u) = true.
Proof. induction u; cbn; done. Qed.

Lemma lower_string_of_uint u :
  lower (NilEmpty.string_of_uint u) = NilEmpty.string_of_uint u.
Proof. induction u; cbn; [done | by rewrite IHu ..]. Qed.

(** The digits of the year determine the year. *)
Lemma fmt_Y_inj (d1 d2 : datetime) : fmt_Y d1 = fmt_Y d2 -> year d1 = year d2.
Proof.
  unfold fmt_Y. intros E.
  apply (f_equal NilEmpty.uint_of_string) in E.
  rewrite !NilEmpty.usu in E. injection E as E.
  apply (f_equal Nat.of_uint) in E.
  by rewrite !Unsigned.of_to in E.
Qed.

Lemma lower_month_name (m : month) :
  lower (month_name m) = lowercase_month_name m.
Proof. by destruct m. Qed.

(** Digits followed by something that does not start with a digit split
    in one way only. *)
Lemma digits_split s1 s2 t1 t2 c1 c2 :
  all_digits s1 = true -> all_digits s2 = true ->
  is_digit c1 = false -> is_digit c2 = false ->
  s1 ++ String c1 t1 = s2 ++ String c2 t2 ->
  s1 = s2 /\ String c1 t1 = String c2 t2.
Proof.
  intros H1 H2 Hc1 Hc2. revert s2 H2.
  induction s1 as [|a s1 IH]; intros [|b s2] H2 E;
    rewrite ?append_cons, ?append_nil in E; cbn [all_digits] in *.
  - done.
  - injection E as -> _. apply andb_true_iff in H2 as [H2 _]. congruence.
  - injection E as -> _. apply andb_true_iff in H1 as [H1 _]. congruence.
  - injection E as -> E.
    apply andb_true_iff in H1 as [_ H1]. apply andb_true_iff in H2 as [_ H2].
    destruct (IH H1 _ H2 E) as [-> ?]. done.
Qed.

Lemma cache_key_unfold (d : datetime) :
  cache_key d = fmt_Y d ++ lower (month_name (mon d)).
Proof.
  unfold cache_key. cbn [strftime]. unfold fmt_B.
  rewrite !lower_app. unfold fmt_Y at 1. rewrite lower_string_of_uint.
  cbn [lower]. fold (fmt_Y d).
  by rewrite append_nil_r.
Qed.

Lemma prefix_refl s : String.prefix s s = true.
Proof. apply prefix_spec. exists "". by rewrite append_nil_r. Qed.

Lemma str_in_refl s : str_in s s = true.
Proof.
  destruct s; cbn [str_in]; by rewrite prefix_refl.
Qed.

Lemma str_in_app_l s pre t : str_in s t = true -> str_in s (pre ++ t) = true.
Proof.
  intros H. induction pre as [|c pre IH]; [done|].
  rewrite append_cons. cbn [str_in]. rewrite IH. apply orb_true_r.
Qed.

(** Both [ConnectionError] messages show the status code. *)
Lemma status_in_page_error url status :
  exists msg, page_error url status = ConnectionError msg /\
              str_in (str_int status) msg = true.
Proof.
  eexists; split; [reflexivity|].
  do 5 apply str_in_app_l. apply str_in_refl.
Qed.

Lemma status_in_pdf_error url status :
  exists msg, pdf_error url status = ConnectionError msg /\
              str_in (str_int status) msg = true.
Proof.
  eexists; split; [reflexivity|].
  do 5 apply str_in_app_l. apply str_in_refl.
Qed.

Lemma month_name_inj (m1 m2 : month) :
  lower (month_name m1) ++ ".pdf" = lower (month_name m2) ++ ".pdf" ->
  m1 = m2.
Proof. destruct m1, m2; (reflexivity || discriminate). Qed.

Lemma month_name_shape (m : month) :
  exists c t, lower (month_name m) ++ ".pdf" = String c t /\
              is_digit c = false.
Proof. destruct m; do 2 eexists; (split; [reflexivity|reflexivity]). Qed.

Example cache_file_name_june_2024 :
  cache_file_name (mk_datetime 2024 June 17) = "2024june.pdf".
Proof. reflexivity. Qed.

(** C5. The cache key is the year followed by the month name in lower
    case: a run of decimal digits that reads back as the year of the date,
    then ["january"], ..., ["december"] as written out in
    [lowercase_month_name], and the file name is that key with [".pdf"].
    It reads nothing but the date, and two dates get the same file name
    exactly when they agree on year and month. *)
Theorem cache_key_by_month (d1 d2 : datetime) :
  (exists y,
      cache_key d1 = y ++ lowercase_month_name (mon d1) /\
      cache_file_name d1 = y ++ lowercase_month_name (mon d1) ++ ".pdf" /\
      all_digits y = true /\
      NilEmpty.uint_of_string y = Some (Nat.to_uint (year d1))) /\
  (cache_file_name d1 = cache_file_name d2 <->
   year d1 = year d2 /\ mon d1 = mon d2).
Proof.
  split.
  { exists (fmt_Y d1). unfold cache_file_name.
    rewrite cache_key_unfold, lower_month_name, append_assoc.
    repeat split; [apply string_of_uint_digits | apply NilEmpty.usu]. }
  unfold cache_file_name.
  rewrite !cache_key_unfold. split.
  - intros Heq. rewrite !append_assoc in Heq.
    destruct (month_name_shape (mon d1)) as (c1 & t1 & E1 & Hc1).
    destruct (month_name_shape (mon d2)) as (c2 & t2 & E2 & Hc2).
    pose proof Heq as Heq'. rewrite E1, E2 in Heq'.
    apply digits_split in Heq' as [HY Hrest];
      try done; try apply string_of_uint_digits.
    split; [by apply fmt_Y_inj|].
    apply month_name_inj. by rewrite E1, E2.
  - intros [Hy Hm]. unfold fmt_Y. by rewrite Hy, Hm.
Qed.

End text_facts.

(* ===================================================================== *)
(** ** The fetcher *)

Section fetcher.
Context (E : env) (dir : Fs.path).
Implicit Types (w : world) (page_url : option string) (p : Fs.path).

Lemma exists_true_stat r p :
  Fs.exists_ r p = true <-> exists m, Fs.stat r p = Some m.
Proof.
  unfold Fs.exists_. destruct (Fs.stat r p) as [m|].
  - split; eauto.
  - split; [done | by intros [? ?]].
Qed.

Lemma exists_false_stat r p : Fs.exists_ r p = false <-> Fs.stat r p = None.
Proof. unfold Fs.exists_. by destruct (Fs.stat r p). Qed.

(** With the artifact in place the directory is in place too. *)
Lemma mkdir_when_cached r :
  Fs.exists_ r (artifact E dir) = true -> Fs.mkdir r dir = Ok r.
Proof.
  intros [m Hm]%exists_true_stat.
  destruct (stat_parent _ _ _ _ Hm) as [es Hes].
  by apply mkdir_present with es.
Qed.

Lemma get_calendar_cached page_url w :
  Fs.exists_ (fs w) (artifact E dir) = true ->
  get_calendar E dir page_url false w = (w, Ok (artifact E dir)).
Proof.
  intros Hex. pose proof (mkdir_when_cached _ Hex) as Hmk.
  run. rewrite Hmk. cbn [fs]. rewrite Hex. by destruct w.
Qed.

(** Every successful call returns the artifact path, and the artifact is
    there afterwards. *)
Lemma get_calendar_ok page_url force_dl w w1 p :
  get_calendar E dir page_url force_dl w = (w1, Ok p) ->
  p = artifact E dir /\ Fs.exists_ (fs w1) (artifact E dir) = true.
Proof.
  intros H. run.
  repeat case_match; simplify_eq; cbn [fs] in *.
  all: split; [done|]; try done.
  all: apply exists_true_stat; eexists; by eapply write_bytes_stat.
Qed.

(** [mkdir] neither creates nor removes the artifact. *)
Lemma mkdir_keeps_artifact r r1 :
  Fs.mkdir r dir = Ok r1 ->
  Fs.exists_ r1 (artifact E dir) = Fs.exists_ r (artifact E dir).
Proof.
  intros Hmk. unfold Fs.exists_, artifact, Fs.join.
  by rewrite (mkdir_below _ _ _ _ [] Hmk).
Qed.

Lemma artifact_not_root : exists a q, artifact E dir = a :: q.
Proof. unfold artifact, Fs.join. destruct dir; cbn; eauto. Qed.

(** Deleting the artifact, a regular file, succeeds and removes it. *)
Lemma unlink_artifact r b :
  Fs.stat r (artifact E dir) = Some (Fs.File b) ->
  exists r', Fs.unlink r (artifact E dir) = Ok r' /\
             Fs.exists_ r' (artifact E dir) = false.
Proof.
  destruct artifact_not_root as (a & q & ->). intros H.
  destruct (unlink_file _ _ _ _ H) as (r' & Hu & Hgone).
  exists r'. split; [done|]. by apply exists_false_stat.
Qed.

(** Where the artifact is absent and its directory present, the write on
    line 62 cannot fail. *)
Lemma write_artifact r es d :
  Fs.stat r dir = Some (Fs.Dir es) ->
  Fs.exists_ r (artifact E dir) = false ->
  exists r', Fs.write_bytes r (artifact E dir) d = Ok r'.
Proof.
  intros Hd Ha%exists_false_stat. by eapply write_bytes_fresh.
Qed.

(** A failure while fetching leaves no artifact behind. *)
Lemma get_calendar_failure page_url force_dl w w1 e :
  get_calendar E dir page_url force_dl w = (w1, Raise e) ->
  raised_while_fetching e = true ->
  Fs.exists_ (fs w1) (artifact E dir) = false.
Proof.
  intros H He. run.
  repeat case_match; simplify_eq; cbn [fs] in *; try done.
  all: repeat match goal with
         | H : Fs.mkdir _ _ = Raise _ |- _ => apply mkdir_raises in H
         | H : Fs.unlink _ _ = Raise _ |- _ => apply unlink_raises in H
         | H : Fs.write_bytes _ _ _ = Raise _ |- _ =>
             apply write_bytes_raises in H
         end; congruence.
Qed.

(** C1. When this month's artifact is already there and [force_dl] is
    false, the call returns the artifact path at once and the world is
    the one it started in: no request is added to the trace and the file
    tree is the same.  Hence a call repeated after a successful one
    returns the same path and changes nothing. *)
Theorem cached_call_is_pure page_url :
  (forall w,
      Fs.exists_ (fs w) (artifact E dir) = true ->
      get_calendar E dir page_url false w = (w, Ok (artifact E dir))) /\
  (forall w w1 p,
      get_calendar E dir page_url false w = (w1, Ok p) ->
      get_calendar E dir page_url false w1 = (w1, Ok p)).
Proof.
  split.
  - intros w. apply get_calendar_cached.
  - intros w w1 p H. destruct (get_calendar_ok _ _ _ _ _ H) as [-> Hex].
    by apply get_calendar_cached.
Qed.

(** C2. A successful call that downloaded (its trace of requests grew)
    returns [dir / (cache key + ".pdf")]; the page answered 200 with
    exactly one link, the link answered 200, these were the only two
    requests, and the file at the returned path holds exactly the bytes
    of the second response. *)
Theorem download_stores_pdf page_url force_dl w w1 p :
  get_calendar E dir page_url force_dl w = (w1, Ok p) ->
  requests w1 <> requests w ->
  p = Fs.join dir (cache_key (today E) ++ ".pdf") /\
  exists page pdf_url pdf,
    http_get E (str_opt page_url) = Some page /\
    status_code page = 200%Z /\
    dl_links_of (find_all_a E (content page)) = Ok [pdf_url] /\
    http_get E pdf_url = Some pdf /\
    status_code pdf = 200%Z /\
    requests w1 = (requests w ++ [str_opt page_url; pdf_url])%list /\
    Fs.stat (fs w1) p = Some (Fs.File (content pdf)).
Proof.
  intros H Hreq. destruct (get_calendar_ok _ _ _ _ _ H) as [-> _].
  split; [done|]. run.
  repeat case_match; simplify_eq; cbn [fs requests] in *; try done.
  all: repeat match goal with
         | H : negb (_ =? _)%Z = false |- _ =>
             apply negb_false_iff, Z.eqb_eq in H
         end.
  all: do 3 eexists; repeat split; try eassumption.
  all: try by rewrite <- app_assoc.
  all: by eapply write_bytes_stat.
Qed.

(** C6. With a missing or empty [page_url], a call that gets past the
    cache check (the artifact is absent and the directory can be made, or
    the artifact is a file that [force_dl] deletes) raises the
    "No page URL provided." [ValueError] before any request; a call that
    finds the artifact with [force_dl] off does not fail. *)
Theorem missing_url_rejected page_url w :
  truthy page_url = false ->
  (forall force_dl,
      (Fs.exists_ (fs w) (artifact E dir) = false /\
       exists r, Fs.mkdir (fs w) dir = Ok r) \/
      (force_dl = true /\
       exists b, Fs.stat (fs w) (artifact E dir) = Some (Fs.File b)) ->
      exists w1,
        get_calendar E dir page_url force_dl w = (w1, Raise no_url_error) /\
        requests w1 = requests w) /\
  (Fs.exists_ (fs w) (artifact E dir) = true ->
   get_calendar E dir page_url false w = (w, Ok (artifact E dir))).
Proof.
  intros Hurl. split; [|apply get_calendar_cached].
  intros force_dl [[Habs [r Hmk]]|[-> [b Hst]]].
  - pose proof (mkdir_keeps_artifact _ _ Hmk) as Hk. rewrite Habs in Hk.
    destruct force_dl; run; rewrite Hmk; cbn [fs];
      rewrite ?Hk; cbn [fs]; rewrite ?Hk, Hurl; cbn; eauto.
  - assert (Hex : Fs.exists_ (fs w) (artifact E dir) = true)
      by (apply exists_true_stat; eauto).
    pose proof (mkdir_when_cached _ Hex) as Hmk.
    destruct (unlink_artifact _ _ Hst) as (r' & Hu & Hgone).
    run.
    repeat (cbn [fs]; first [rewrite Hmk | rewrite Hex | rewrite Hu
                            | rewrite Hgone | rewrite Hurl]).
    cbn. eauto.
Qed.

(** C7. A call ends in one of two ways: it returns the artifact path and
    the artifact is there, or it raises; and when what it raises comes
    from the page fetch, the link count or the PDF fetch, no artifact
    is there afterwards. *)
Theorem failed_fetch_leaves_no_file page_url force_dl w w1 r :
  get_calendar E dir page_url force_dl w = (w1, r) ->
  match r with
  | Ok p =>
      p = artifact E dir /\ Fs.exists_ (fs w1) (artifact E dir) = true
  | Raise e =>
      raised_while_fetching e = true ->
      Fs.exists_ (fs w1) (artifact E dir) = false
  end.
Proof.
  intros H. destruct r as [p|e].
  - by eapply get_calendar_ok.
  - by eapply get_calendar_failure.
Qed.

(** C10. With [force_dl] on and the artifact present as a file, the
    artifact is deleted first: a call without [page_url] raises with no
    request made and the artifact gone, and whatever a call raises, the
    artifact is gone when the exception leaves the function. *)
Theorem forced_refresh_deletes_first page_url w b :
  Fs.stat (fs w) (artifact E dir) = Some (Fs.File b) ->
  (truthy page_url = false ->
   exists w1,
     get_calendar E dir page_url true w = (w1, Raise no_url_error) /\
     requests w1 = requests w /\
     Fs.exists_ (fs w1) (artifact E dir) = false) /\
  (forall w1 e,
      get_calendar E dir page_url true w = (w1, Raise e) ->
      Fs.exists_ (fs w1) (artifact E dir) = false).
Proof.
  intros Hst.
  assert (Hex : Fs.exists_ (fs w) (artifact E dir) = true)
    by (apply exists_true_stat; eauto).
  pose proof (mkdir_when_cached _ Hex) as Hmk.
  destruct (unlink_artifact _ _ Hst) as (r' & Hu & Hgone).
  split.
  - intros Hurl. run.
    repeat (cbn [fs]; first [rewrite Hmk | rewrite Hex | rewrite Hu
                            | rewrite Hgone | rewrite Hurl]).
    cbn. eauto.
  - intros w1 e H. run.
    repeat (cbn [fs] in H;
            first [rewrite Hmk in H | rewrite Hex in H | rewrite Hu in H
                  | rewrite Hgone in H]).
    repeat case_match; simplify_eq; cbn [fs]; done.
Qed.

(** *** Link extraction *)

Lemma dl_links_of_skip before rest :
  Forall (fun a => matches a = false) before ->
  dl_links_of (before ++ rest) = dl_links_of rest.
Proof.
  induction 1 as [|a before Ha _ IH]; [done|].
  cbn. unfold matches in Ha. by rewrite Ha.
Qed.

Lemma dl_links_of_none links :
  Forall (fun a => matches a = false) links -> dl_links_of links = Ok [].
Proof.
  intros H. rewrite <- (app_nil_r links). by rewrite dl_links_of_skip.
Qed.

(** What the comprehension yields when it does not raise: the [href] of
    each matching anchor, in page order. *)
Lemma dl_links_of_ok links hrefs :
  dl_links_of links = Ok hrefs ->
  Forall2 (fun a href => attrs a !! "href" = Some href)
          (filter (fun a => matches a = true) links) hrefs.
Proof.
  revert hrefs. induction links as [|a links IH]; intros hrefs;
    cbn [dl_links_of].
  - intros [= <-]. constructor.
  - rewrite filter_cons.
    destruct (decide (matches a = true)) as [Hm|Hm]; unfold matches in Hm.
    + rewrite Hm.
      destruct (attrs a !! "href") as [h|] eqn:Hh; [|done].
      destruct (dl_links_of links) as [hs|]; [|done].
      intros [= <-]. constructor; auto.
    + apply not_true_is_false in Hm. rewrite Hm. apply IH.
Qed.

(** Where every matching anchor carries an [href], the comprehension
    does not raise. *)
Lemma dl_links_of_total links :
  Forall (fun a => matches a = true -> is_Some (attrs a !! "href")) links ->
  exists hrefs,
    dl_links_of links = Ok hrefs /\
    Forall2 (fun a href => attrs a !! "href" = Some href)
            (filter (fun a => matches a = true) links) hrefs.
Proof.
  induction 1 as [|a links Ha _ (hrefs & IH & IH2)].
  - exists []. split; [done | constructor].
  - cbn [dl_links_of]. rewrite filter_cons.
    destruct (decide (matches a = true)) as [Hm|Hm].
    + destruct (Ha Hm) as [h Hh]. unfold matches in Hm.
      rewrite Hm, Hh, IH. exists (h :: hrefs). split; [done|].
      by constructor.
    + apply not_true_is_false in Hm. unfold matches in Hm.
      rewrite Hm. eauto.
Qed.

Lemma no_match_filter links :
  Forall (fun a => matches a = false) links ->
  filter (fun a => matches a = true) links = [].
Proof.
  induction 1 as [|a links Ha _ IH]; [done|].
  rewrite filter_cons, decide_False; [done | congruence].
Qed.

(** *** From the page fetch on *)

Section page_fetched.
Context (page_url : option string) (force_dl : bool).
Context (w : world) (r : Fs.node) (page : response).
Hypothesis Hmk : Fs.mkdir (fs w) dir = Ok r.
Hypothesis Habsent : Fs.exists_ (fs w) (artifact E dir) = false.
Hypothesis Hurl : truthy page_url = true.
Hypothesis Hpage : http_get E (str_opt page_url) = Some page.

Lemma absent_after_mkdir : Fs.exists_ r (artifact E dir) = false.
Proof. by rewrite (mkdir_keeps_artifact _ _ Hmk). Qed.

Lemma page_refused :
  status_code page <> 200%Z ->
  get_calendar E dir page_url force_dl w =
  (sent w [str_opt page_url] r,
   Raise (page_error (str_opt page_url) (status_code page))).
Proof.
  intros Hs%Z.eqb_neq. pose proof absent_after_mkdir as Hk.
  destruct force_dl; run;
    repeat (cbn [fs negb];
            first [rewrite Hmk | rewrite Hk | rewrite Hurl
                  | rewrite Hpage | rewrite Hs]); done.
Qed.

Lemma page_raises e :
  status_code page = 200%Z ->
  dl_links_of (find_all_a E (content page)) = Raise e ->
  get_calendar E dir page_url force_dl w =
  (sent w [str_opt page_url] r, Raise e).
Proof.
  intros Hs%Z.eqb_eq Hl. pose proof absent_after_mkdir as Hk.
  destruct force_dl; run;
    repeat (cbn [fs negb];
            first [rewrite Hmk | rewrite Hk | rewrite Hurl
                  | rewrite Hpage | rewrite Hs | rewrite Hl]); done.
Qed.

Lemma page_without_link :
  status_code page = 200%Z ->
  dl_links_of (find_all_a E (content page)) = Ok [] ->
  get_calendar E dir page_url force_dl w =
  (sent w [str_opt page_url] r, Raise no_links_error).
Proof.
  intros Hs%Z.eqb_eq Hl. pose proof absent_after_mkdir as Hk.
  destruct force_dl; run;
    repeat (cbn [fs negb];
            first [rewrite Hmk | rewrite Hk | rewrite Hurl
                  | rewrite Hpage | rewrite Hs | rewrite Hl]); done.
Qed.

Lemma page_with_many_links h1 h2 hs :
  status_code page = 200%Z ->
  dl_links_of (find_all_a E (content page)) = Ok (h1 :: h2 :: hs) ->
  get_calendar E dir page_url force_dl w =
  (sent w [str_opt page_url] r, Raise multiple_links_error).
Proof.
  intros Hs%Z.eqb_eq Hl. pose proof absent_after_mkdir as Hk.
  destruct force_dl; run;
    repeat (cbn [fs negb];
            first [rewrite Hmk | rewrite Hk | rewrite Hurl
                  | rewrite Hpage | rewrite Hs | rewrite Hl]); done.
Qed.

Lemma pdf_unreachable pdf_url :
  status_code page = 200%Z ->
  dl_links_of (find_all_a E (content page)) = Ok [pdf_url] ->
  http_get E pdf_url = None ->
  get_calendar E dir page_url force_dl w =
  (sent w [str_opt page_url; pdf_url] r, Raise RequestException).
Proof.
  intros Hs%Z.eqb_eq Hl Hp. pose proof absent_after_mkdir as Hk.
  unfold sent.
  destruct force_dl; run;
    repeat (cbn [fs requests launched negb];
            first [rewrite Hmk | rewrite Hk | rewrite Hurl
                  | rewrite Hpage | rewrite Hs | rewrite Hl
                  | rewrite Hp]);
    by rewrite <- app_assoc.
Qed.

Lemma pdf_refused pdf_url pdf :
  status_code page = 200%Z ->
  dl_links_of (find_all_a E (content page)) = Ok [pdf_url] ->
  http_get E pdf_url = Some pdf ->
  status_code pdf <> 200%Z ->
  get_calendar E dir page_url force_dl w =
  (sent w [str_opt page_url; pdf_url] r,
   Raise (pdf_error pdf_url (status_code pdf))).
Proof.
  intros Hs%Z.eqb_eq Hl Hp Hs'%Z.eqb_neq.
  pose proof absent_after_mkdir as Hk. unfold sent.
  destruct force_dl; run;
    repeat (cbn [fs requests launched negb];
            first [rewrite Hmk | rewrite Hk | rewrite Hurl
                  | rewrite Hpage | rewrite Hs | rewrite Hl
                  | rewrite Hp | rewrite Hs']);
    by rewrite <- app_assoc.
Qed.

Lemma pdf_stored pdf_url pdf :
  status_code page = 200%Z ->
  dl_links_of (find_all_a E (content page)) = Ok [pdf_url] ->
  http_get E pdf_url = Some pdf ->
  status_code pdf = 200%Z ->
  exists r',
    get_calendar E dir page_url force_dl w =
    (sent w [str_opt page_url; pdf_url] r', Ok (artifact E dir)) /\
    Fs.stat r' (artifact E dir) = Some (Fs.File (content pdf)).
Proof.
  intros Hs%Z.eqb_eq Hl Hp Hs'%Z.eqb_eq.
  pose proof absent_after_mkdir as Hk.
  destruct (mkdir_is_dir _ _ _ Hmk) as [es Hdir].
  destruct (write_artifact _ _ (content pdf) Hdir Hk) as [r' Hw].
  exists r'. split; [|by eapply write_bytes_stat].
  unfold sent.
  destruct force_dl; run;
    repeat (cbn [fs requests launched negb];
            first [rewrite Hmk | rewrite Hk | rewrite Hurl
                  | rewrite Hpage | rewrite Hs | rewrite Hl
                  | rewrite Hp | rewrite Hs' | rewrite Hw]);
    by rewrite <- app_assoc.
Qed.

(** The status gate for a call that found the artifact absent. *)
Lemma status_gate_when_absent :
  (status_code page <> 200%Z ->
   exists msg,
     get_calendar E dir page_url force_dl w =
     (sent w [str_opt page_url] r, Raise (ConnectionError msg)) /\
     str_in (str_int (status_code page)) msg = true) /\
  (status_code page = 200%Z ->
   match dl_links_of (find_all_a E (content page)) with
   | Raise e =>
       get_calendar E dir page_url force_dl w =
       (sent w [str_opt page_url] r, Raise e)
   | Ok [] =>
       get_calendar E dir page_url force_dl w =
       (sent w [str_opt page_url] r, Raise no_links_error)
   | Ok [pdf_url] =>
       match http_get E pdf_url with
       | None =>
           get_calendar E dir page_url force_dl w =
           (sent w [str_opt page_url; pdf_url] r, Raise RequestException)
       | Some pdf =>
           (status_code pdf <> 200%Z ->
            exists msg,
              get_calendar E dir page_url force_dl w =
              (sent w [str_opt page_url; pdf_url] r,
               Raise (ConnectionError msg)) /\
              str_in (str_int (status_code pdf)) msg = true) /\
           (status_code pdf = 200%Z ->
            exists r',
              get_calendar E dir page_url force_dl w =
              (sent w [str_opt page_url; pdf_url] r',
               Ok (artifact E dir)) /\
              Fs.stat r' (artifact E dir) = Some (Fs.File (content pdf)))
       end
   | Ok (_ :: _ :: _) =>
       get_calendar E dir page_url force_dl w =
       (sent w [str_opt page_url] r, Raise multiple_links_error)
   end).
Proof.
  split.
  - intros Hs.
    destruct (status_in_page_error (str_opt page_url) (status_code page))
      as (msg & Hmsg & Hin).
    exists msg. split; [|done]. rewrite <- Hmsg. by apply page_refused.
  - intros Hs.
    destruct (dl_links_of (find_all_a E (content page)))
      as [[|pdf_url [|h2 hs]]|e] eqn:Hl.
    + by apply page_without_link.
    + destruct (http_get E pdf_url) as [pdf|] eqn:Hp.
      * split.
        -- intros Hs'.
           destruct (status_in_pdf_error pdf_url (status_code pdf))
             as (msg & Hmsg & Hin).
           exists msg. split; [|done]. rewrite <- Hmsg.
           by apply pdf_refused.
        -- by apply pdf_stored.
      * by apply pdf_unreachable.
    + by eapply page_with_many_links.
    + by apply page_raises.
Qed.

(** The link-count policy where every matching anchor carries an
    [href]: no match raises the "No download links" [ValueError], two
    or more raise the "Multiple download links" one, a different
    value of the same class, and a single match has its [href]
    requested next. *)
Lemma link_count_policy :
  status_code page = 200%Z ->
  Forall (fun a => matches a = true -> is_Some (attrs a !! "href"))
         (find_all_a E (content page)) ->
  match filter (fun a => matches a = true) (find_all_a E (content page)) with
  | [] =>
      get_calendar E dir page_url force_dl w =
      (sent w [str_opt page_url] r, Raise no_links_error)
  | [a] =>
      exists pdf_url w1 res,
        attrs a !! "href" = Some pdf_url /\
        get_calendar E dir page_url force_dl w = (w1, res) /\
        requests w1 = (requests w ++ [str_opt page_url; pdf_url])%list
  | _ :: _ :: _ =>
      get_calendar E dir page_url force_dl w =
      (sent w [str_opt page_url] r, Raise multiple_links_error)
  end /\
  no_links_error <> multiple_links_error.
Proof.
  intros Hs Hall. split; [|done].
  destruct (dl_links_of_total _ Hall) as (hrefs & Hl & Hf).
  destruct Hf as [|a h ms hs Ha Hf].
  - by apply page_without_link.
  - destruct Hf as [|a2 h2 ms hs Ha2 Hf].
    + exists h.
      destruct (http_get E h) as [pdf|] eqn:Hp.
      * destruct (Z.eq_dec (status_code pdf) 200%Z) as [Hs'|Hs'].
        -- destruct (pdf_stored h pdf Hs Hl Hp Hs') as (r' & Hrun & _).
           do 2 eexists. by rewrite Hrun.
        -- do 2 eexists. by rewrite (pdf_refused h pdf Hs Hl Hp Hs').
      * do 2 eexists. by rewrite (pdf_unreachable h Hs Hl Hp).
    + by eapply page_with_many_links.
Qed.

(** C9. A page answered with 200 on which exactly one anchor passes the
    filter, and that anchor has no [href]: the subscript on line 52
    raises [KeyError], which leaves the function as it is, after the
    one request for the page; it is none of the exception classes of
    the error taxonomy. *)
Theorem lone_anchor_without_href before a after :
  status_code page = 200%Z ->
  find_all_a E (content page) = (before ++ a :: after)%list ->
  Forall (fun x => matches x = false) (before ++ after) ->
  matches a = true ->
  attrs a !! "href" = None ->
  filter (fun x => matches x = true) (find_all_a E (content page)) = [a] /\
  get_calendar E dir page_url force_dl w =
  (sent w [str_opt page_url] r, Raise (KeyError "href")) /\
  in_taxonomy (KeyError "href") = false.
Proof.
  intros Hs Hlinks [Hb Ha]%Forall_app Hm Hh. split; [|split; [|done]].
  - rewrite Hlinks, filter_app, filter_cons, decide_True by done.
    rewrite !no_match_filter by done. done.
  - apply page_raises; [done|].
    rewrite Hlinks, dl_links_of_skip by done.
    cbn [dl_links_of]. unfold matches in Hm. by rewrite Hm, Hh.
Qed.

End page_fetched.

End fetcher.

(* ===================================================================== *)
(** ** The launcher *)

Section launcher.
Context (E : env) (file : Fs.path) (using_ : option string) (w : world).

Lemma open_calendar_missing_file :
  Fs.exists_ (fs w) file = false ->
  open_calendar E file using_ w =
  (w, Raise (FileNotFoundError ("File '" ++ path_str file ++ "' does not exist."))).
Proof. intros H. run. by rewrite H. Qed.

(** A name that [webbrowser.get] cannot resolve ends the call on line 83:
    the test on line 84 is never reached with a falsy value. *)
Lemma open_calendar_unresolved :
  Fs.exists_ (fs w) file = true ->
  registry E using_ = None ->
  open_calendar E file using_ w =
  (w, Raise (WebbrowserError "could not locate runnable browser")).
Proof. intros H Hr. run. rewrite H. cbn [negb]. by rewrite Hr. Qed.

(** With the file in place and a controller found, the request to open
    the file goes to that controller and the call returns [None],
    whatever [open_new] answers. *)
Lemma open_calendar_launches b :
  Fs.exists_ (fs w) file = true ->
  registry E using_ = Some b ->
  open_calendar E file using_ w =
  (mk_world (fs w) (requests w)
     (launched w ++ [(browser_name b, "file://" ++ path_str file)]),
   Ok tt).
Proof. intros H Hr. run. rewrite H. cbn [negb]. by rewrite Hr. Qed.

(** No run of the launcher raises the [ValueError] of line 85. *)
Lemma open_calendar_never_ValueError w1 msg :
  open_calendar E file using_ w <> (w1, Raise (ValueError msg)).
Proof.
  run. unfold truthy_browser. cbn [negb].
  repeat case_match; congruence.
Qed.

End launcher.

(* ===================================================================== *)
(** ** The statements on the sample run *)

(** C3, as stated, fails: a page answered with 204, a 2xx status, makes the
    call raise the page [ConnectionError] instead of going on. *)
Lemma page_204_is_refused :
  (200 <= 204 < 300)%Z /\
  get_calendar (Sample.server 204 200 [Sample.anchor (Some Sample.pdf_url)])
    Sample.dir (Some Sample.page_url) false Sample.empty
  = (sent Sample.empty [Sample.page_url]
       (Fs.Dir {[ "home" := Fs.Dir {[ "calendars" := Fs.Dir ∅ ]} ]}),
     Raise (page_error Sample.page_url 204)).
Proof. split; [lia | by vm_compute]. Qed.

(** C4 at a page with two matching anchors of which the first has no
    [href]: the call raises [KeyError] on line 52, not the "Multiple
    download links" [ValueError] of line 56. *)
Theorem two_matches_one_without_href :
  let anchors := [Sample.anchor None; Sample.anchor (Some Sample.pdf_url)] in
  filter (fun a => matches a = true) anchors = anchors /\
  get_calendar (Sample.server 200 200 anchors)
    Sample.dir (Some Sample.page_url) false Sample.empty
  = (sent Sample.empty [Sample.page_url]
       (Fs.Dir {[ "home" := Fs.Dir {[ "calendars" := Fs.Dir ∅ ]} ]}),
     Raise (KeyError "href")) /\
  Raise (A := Fs.path) (KeyError "href") <> Raise multiple_links_error.
Proof. split; [by vm_compute | split; [by vm_compute | done]]. Qed.

(** C8 at an existing file and a viewer name that resolves to nothing: the
    call raises [webbrowser.Error] on line 83, not the [ValueError] of
    line 85. *)
Theorem unknown_viewer_raises_webbrowser_error :
  let file := Fs.join Sample.dir "2024june.pdf" in
  Fs.exists_ (fs Sample.cached) file = true /\
  registry Sample.good (Some "lynx") = None /\
  open_calendar Sample.good file (Some "lynx") Sample.cached
  = (Sample.cached, Raise (WebbrowserError "could not locate runnable browser")).
Proof. repeat split; by vm_compute. Qed.

(** The tree of [Sample.empty] once the calendar directory is made. *)
Lemma sample_mkdir :
  Fs.mkdir (fs Sample.empty) Sample.dir =
  Ok (Fs.Dir {[ "home" := Fs.Dir {[ "calendars" := Fs.Dir ∅ ]} ]}).
Proof. by vm_compute. Qed.

Lemma cached_call_is_pure_witness :
  get_calendar Sample.good Sample.dir None false Sample.cached
  = (Sample.cached, Ok ["home"; "calendars"; "2024june.pdf"]) /\
  (let w1 := fst (get_calendar Sample.good Sample.dir (Some Sample.page_url)
                    false Sample.empty) in
   get_calendar Sample.good Sample.dir (Some Sample.page_url) false w1
   = (w1, Ok ["home"; "calendars"; "2024june.pdf"])).
Proof.
  split.
  - apply (proj1 (cached_call_is_pure Sample.good Sample.dir None)
             Sample.cached).
    vm_compute. reflexivity.
  - apply (proj2 (cached_call_is_pure Sample.good Sample.dir
                    (Some Sample.page_url)) Sample.empty).
    vm_compute. reflexivity.
Defined.

Lemma download_stores_pdf_witness :
  exists w1,
    get_calendar Sample.good Sample.dir (Some Sample.page_url) false
      Sample.empty = (w1, Ok ["home"; "calendars"; "2024june.pdf"]) /\
    exists page pdf_url pdf,
      http_get Sample.good Sample.page_url = Some page /\
      status_code page = 200%Z /\
      dl_links_of (find_all_a Sample.good (content page)) = Ok [pdf_url] /\
      http_get Sample.good pdf_url = Some pdf /\
      status_code pdf = 200%Z /\
      requests w1 = [Sample.page_url; pdf_url] /\
      Fs.stat (fs w1) ["home"; "calendars"; "2024june.pdf"]
      = Some (Fs.File (content pdf)).
Proof.
  eexists. split; [vm_compute; reflexivity|].
  refine (proj2 (download_stores_pdf Sample.good Sample.dir
                   (Some Sample.page_url) false Sample.empty _
                   ["home"; "calendars"; "2024june.pdf"] _ _)).
  - vm_compute. reflexivity.
  - vm_compute. discriminate.
Defined.

Lemma missing_url_rejected_witness :
  (exists w1,
      get_calendar Sample.good Sample.dir None false Sample.empty
      = (w1, Raise (ValueError "No page URL provided.")) /\
      requests w1 = []) /\
  (exists w1,
      get_calendar Sample.good Sample.dir (Some "") true Sample.cached
      = (w1, Raise (ValueError "No page URL provided.")) /\
      requests w1 = []) /\
  get_calendar Sample.good Sample.dir None false Sample.cached
  = (Sample.cached, Ok ["home"; "calendars"; "2024june.pdf"]).
Proof.
  split; [|split].
  - apply (proj1 (missing_url_rejected Sample.good Sample.dir None
                    Sample.empty eq_refl) false).
    left. split; [vm_compute; reflexivity|].
    eexists. apply sample_mkdir.
  - apply (proj1 (missing_url_rejected Sample.good Sample.dir (Some "")
                    Sample.cached eq_refl) true).
    right. split; [reflexivity|].
    exists Sample.pdf_body. vm_compute. reflexivity.
  - apply (proj2 (missing_url_rejected Sample.good Sample.dir None
                    Sample.cached eq_refl)).
    vm_compute. reflexivity.
Defined.

Lemma failed_fetch_leaves_no_file_witness :
  let E := Sample.server 200 500 [Sample.anchor (Some Sample.pdf_url)] in
  let run := get_calendar E Sample.dir (Some Sample.page_url) false
               Sample.empty in
  snd run = Raise (pdf_error Sample.pdf_url 500) /\
  Fs.exists_ (fs (fst run)) ["home"; "calendars"; "2024june.pdf"] = false.
Proof.
  intros E run. split; [vm_compute; reflexivity|].
  refine (failed_fetch_leaves_no_file E Sample.dir (Some Sample.page_url)
            false Sample.empty (fst run)
            (Raise (pdf_error Sample.pdf_url 500)) _ eq_refl).
  vm_compute. reflexivity.
Defined.

Lemma forced_refresh_deletes_first_witness :
  let E := Sample.server 404 200 [Sample.anchor (Some Sample.pdf_url)] in
  Fs.stat (fs Sample.cached) (artifact E Sample.dir)
  = Some (Fs.File Sample.pdf_body) /\
  forall w1 e,
    get_calendar E Sample.dir (Some Sample.page_url) true Sample.cached
    = (w1, Raise e) ->
    Fs.exists_ (fs w1) (artifact E Sample.dir) = false.
Proof.
  intros E. split; [vm_compute; reflexivity|].
  refine (proj2 (forced_refresh_deletes_first E Sample.dir
                   (Some Sample.page_url) Sample.cached Sample.pdf_body _)).
  vm_compute. reflexivity.
Defined.

Lemma lone_anchor_without_href_witness :
  let E := Sample.server 200 200 [Sample.other_anchor; Sample.anchor None] in
  filter (fun x => matches x = true) (find_all_a E Sample.page_body)
  = [Sample.anchor None] /\
  get_calendar E Sample.dir (Some Sample.page_url) false Sample.empty
  = (sent Sample.empty [Sample.page_url]
       (Fs.Dir {[ "home" := Fs.Dir {[ "calendars" := Fs.Dir ∅ ]} ]}),
     Raise (KeyError "href")) /\
  in_taxonomy (KeyError "href") = false.
Proof.
  intros E.
  refine (lone_anchor_without_href E Sample.dir (Some Sample.page_url) false
            Sample.empty _ (mk_response 200 Sample.page_body)
            sample_mkdir _ _ _ [Sample.other_anchor] (Sample.anchor None) []
            _ _ _ _ _).
  - vm_compute. reflexivity.
  - reflexivity.
  - vm_compute. reflexivity.
  - reflexivity.
  - reflexivity.
  - repeat constructor.
  - vm_compute. reflexivity.
  - vm_compute. reflexivity.
Defined.

(* ===================================================================== *)
(** ** More about the filesystem calls *)

Section fs_frame.
Implicit Types (n m : Fs.node) (p q : Fs.path) (c : string).

Lemma join_cons a p c : Fs.join (a :: p) c = a :: Fs.join p c.
Proof. reflexivity. Qed.

Lemma join_not_nil p c : exists a q, Fs.join p c = a :: q.
Proof. destruct p; cbn; eauto. Qed.

(** [mkdir] over a regular file raises [FileExistsError]. *)
Lemma mkdir_on_file n p b :
  Fs.stat n p = Some (Fs.File b) -> Fs.mkdir n p = Raise FileExistsError.
Proof.
  revert n. induction p as [|a p IH]; intros n.
  - cbn. by intros [= ->].
  - destruct n as [b0|es]; [done|]. rewrite stat_cons. cbn [Fs.mkdir].
    destruct (es !! a) as [ch|]; [|done].
    intros H. cbn. by rewrite (IH _ H).
Qed.

Lemma mkdir_raises_only n p e :
  Fs.mkdir n p = Raise e -> e = FileExistsError \/ e = NotADirectoryError.
Proof.
  revert n. induction p as [|a p IH]; intros [b|es]; cbn;
    try (intros [= <-]; by eauto).
  destruct (Fs.mkdir (default (Fs.Dir ∅) (es !! a)) p) eqn:Hm; [done|].
  intros [= <-]. eauto.
Qed.

(** [unlink] of something that is there fails on a directory only. *)
Lemma unlink_present_raises n p m e :
  Fs.stat n p = Some m -> Fs.unlink n p = Raise e -> e = IsADirectoryError.
Proof.
  revert n. induction p as [|a p IH]; intros n.
  - by intros _ [= <-].
  - destruct n as [b0|es]; [done|]. rewrite stat_cons.
    destruct p as [|a' p].
    + cbn. destruct (es !! a) as [[?|?]|]; [done| |done].
      by intros _ [= <-].
    + rewrite unlink_cons2. destruct (es !! a) as [ch|]; [|done].
      intros Hst. destruct (Fs.unlink ch (a' :: p)) eqn:Hu; [done|].
      intros [= <-]. by eapply IH.
Qed.

Lemma unlink_dir n a p es :
  Fs.stat n (a :: p) = Some (Fs.Dir es) ->
  Fs.unlink n (a :: p) = Raise IsADirectoryError.
Proof.
  revert n a. induction p as [|a' p IH]; intros n a.
  - destruct n as [b0|es0]; [done|]. cbn.
    destruct (es0 !! a) as [ch|]; [|done]. by intros [= ->].
  - destruct n as [b0|es0]; [done|]. rewrite stat_cons, unlink_cons2.
    destruct (es0 !! a) as [ch|]; [|done].
    intros H. by rewrite (IH _ _ H).
Qed.

(** Each call leaves every path alone that is not on the way to its
    argument. *)
Lemma mkdir_frame n p n' q :
  Fs.mkdir n p = Ok n' -> ~ q `prefix_of` p -> Fs.stat n' q = Fs.stat n q.
Proof.
  revert n n' q. induction p as [|a p IH]; intros n n' q.
  - destruct n; [done|]. by intros [= <-].
  - destruct n as [b0|es]; [done|]. cbn [Fs.mkdir].
    destruct (Fs.mkdir (default (Fs.Dir ∅) (es !! a)) p) as [ch'|] eqn:Hm;
      [|done].
    intros [= <-] Hq. destruct q as [|b q].
    { destruct Hq. apply prefix_nil. }
    rewrite !stat_cons. destruct (decide (b = a)) as [->|Hne].
    + rewrite lookup_insert_eq.
      assert (Hq' : ~ q `prefix_of` p)
        by (intros Hp; apply Hq; by apply prefix_cons).
      rewrite (IH _ _ _ Hm Hq').
      destruct (es !! a) as [ch|]; [done|]. cbn.
      destruct q; [|apply stat_empty_below].
      destruct Hq'. apply prefix_nil.
    + by rewrite lookup_insert_ne.
Qed.

Lemma unlink_frame n p n' q :
  Fs.unlink n p = Ok n' -> ~ q `prefix_of` p -> Fs.stat n' q = Fs.stat n q.
Proof.
  revert n n' q. induction p as [|a p IH]; intros n n' q; [done|].
  destruct n as [b0|es]; [done|].
  intros Hu Hq. destruct q as [|b q].
  { destruct Hq. apply prefix_nil. }
  assert (Hq' : b = a -> ~ q `prefix_of` p)
    by (intros -> Hp; apply Hq; by apply prefix_cons).
  destruct p as [|a' p].
  - cbn in Hu. destruct (es !! a) as [[b1|es1]|] eqn:Ha; try done.
    injection Hu as <-. rewrite !stat_cons.
    destruct (decide (b = a)) as [->|Hne].
    + rewrite lookup_delete_eq, Ha.
      destruct q; [|done]. destruct (Hq' eq_refl). apply prefix_nil.
    + by rewrite lookup_delete_ne.
  - rewrite unlink_cons2 in Hu. destruct (es !! a) as [ch|] eqn:Ha; [|done].
    destruct (Fs.unlink ch (a' :: p)) as [ch'|] eqn:Hu'; [|done].
    injection Hu as <-. rewrite !stat_cons.
    destruct (decide (b = a)) as [->|Hne].
    + rewrite lookup_insert_eq, Ha. apply (IH _ _ _ Hu'). auto.
    + by rewrite lookup_insert_ne.
Qed.

Lemma write_bytes_frame n p d n' q :
  Fs.write_bytes n p d = Ok n' -> ~ q `prefix_of` p ->
  Fs.stat n' q = Fs.stat n q.
Proof.
  revert n n' q. induction p as [|a p IH]; intros n n' q; [done|].
  destruct n as [b0|es]; [done|].
  intros Hw Hq. destruct q as [|b q].
  { destruct Hq. apply prefix_nil. }
  assert (Hq' : b = a -> ~ q `prefix_of` p)
    by (intros -> Hp; apply Hq; by apply prefix_cons).
  destruct p as [|a' p].
  - cbn in Hw. destruct (decide (b = a)) as [->|Hne].
    + assert (exists c q', q = c :: q') as (c & q' & ->).
      { destruct q; [|eauto]. destruct (Hq' eq_refl). apply prefix_nil. }
      destruct (es !! a) as [[b1|es1]|] eqn:Ha; try done;
        injection Hw as <-; by rewrite !stat_cons, lookup_insert_eq, Ha.
    + destruct (es !! a) as [[b1|es1]|] eqn:Ha; try done;
        injection Hw as <-; by rewrite !stat_cons, lookup_insert_ne.
  - rewrite write_bytes_cons2 in Hw.
    destruct (es !! a) as [ch|] eqn:Ha; [|done].
    destruct (Fs.write_bytes ch (a' :: p) d) as [ch'|] eqn:Hw'; [|done].
    injection Hw as <-. rewrite !stat_cons.
    destruct (decide (b = a)) as [->|Hne].
    + rewrite lookup_insert_eq, Ha. apply (IH _ _ _ Hw'). auto.
    + by rewrite lookup_insert_ne.
Qed.

Lemma unlink_ok_file n a p n' :
  Fs.unlink n (a :: p) = Ok n' ->
  exists b, Fs.stat n (a :: p) = Some (Fs.File b).
Proof.
  revert n n' a. induction p as [|a' p IH]; intros n n' a.
  - destruct n as [b0|es]; [done|]. cbn.
    destruct (es !! a) as [[b1|es1]|]; try done. eauto.
  - destruct n as [b0|es]; [done|]. rewrite unlink_cons2, stat_cons.
    destruct (es !! a) as [ch|]; [|done].
    destruct (Fs.unlink ch (a' :: p)) as [ch'|] eqn:Hu; [|done].
    intros _. by eapply IH.
Qed.

(** Removing or writing a name leaves its directory a directory. *)
Lemma unlink_keeps_parent n p c n' :
  Fs.unlink n (Fs.join p c) = Ok n' ->
  exists es, Fs.stat n' p = Some (Fs.Dir es).
Proof.
  revert n n'. induction p as [|a p IH]; intros n n'.
  - destruct n as [b0|es]; [done|]. cbn.
    destruct (es !! c) as [[b1|es1]|]; try done. intros [= <-]. eauto.
  - destruct n as [b0|es]; [done|]. rewrite join_cons.
    destruct (join_not_nil p c) as (a' & q & Hq). rewrite Hq, unlink_cons2.
    destruct (es !! a) as [ch|]; [|done]. rewrite <- Hq.
    destruct (Fs.unlink ch (Fs.join p c)) as [ch'|] eqn:Hu; [|done].
    intros [= <-]. rewrite stat_cons, lookup_insert_eq. by eapply IH.
Qed.

Lemma write_bytes_keeps_parent n p c d n' :
  Fs.write_bytes n (Fs.join p c) d = Ok n' ->
  exists es, Fs.stat n' p = Some (Fs.Dir es).
Proof.
  revert n n'. induction p as [|a p IH]; intros n n'.
  - destruct n as [b0|es]; [done|]. cbn.
    destruct (es !! c) as [[b1|es1]|]; try done; intros [= <-]; eauto.
  - destruct n as [b0|es]; [done|]. rewrite join_cons.
    destruct (join_not_nil p c) as (a' & q & Hq).
    rewrite Hq, write_bytes_cons2.
    destruct (es !! a) as [ch|]; [|done]. rewrite <- Hq.
    destruct (Fs.write_bytes ch (Fs.join p c) d) as [ch'|] eqn:Hu; [|done].
    intros [= <-]. rewrite stat_cons, lookup_insert_eq. by eapply IH.
Qed.

End fs_frame.

(* ===================================================================== *)
(** ** More about the fetcher *)

Section fetcher_effects.
Context (E : env) (dir : Fs.path).
Implicit Types (w : world) (page_url : option string) (q : Fs.path).

Lemma dir_before_artifact q :
  ~ q `prefix_of` artifact E dir -> ~ q `prefix_of` dir.
Proof.
  intros Hq Hp. apply Hq. etransitivity; [done|].
  unfold artifact, Fs.join. by apply prefix_app_r.
Qed.

Lemma dl_links_of_raises links e :
  dl_links_of links = Raise e -> e = KeyError "href".
Proof.
  induction links as [|a links IH]; [done|]. cbn.
  destruct (str_in search_str (text a)); [|done].
  destruct (attrs a !! "href"); [|by intros [= <-]].
  destruct (dl_links_of links); [done|]. intros [= <-]. auto.
Qed.

(** Once the directory is made it stays a directory through the
    deletion and the write. *)
Lemma dir_after_unlink r r' :
  Fs.unlink r (artifact E dir) = Ok r' ->
  exists es, Fs.stat r' dir = Some (Fs.Dir es).
Proof. apply unlink_keeps_parent. Qed.

(** Split a run into its exits, with the worlds simplified. *)
Ltac exits :=
  run; repeat case_match; simplify_eq; cbn [fs requests launched] in *.

(** X1. A call changes the file tree on the way to the artifact only:
    every path that is not the artifact path or one of its ancestors has
    after the call what it had before, whatever the outcome.  Files of
    other months in the same directory are among these paths. *)
Theorem fetch_touches_only_its_path page_url force_dl w w1 r q :
  get_calendar E dir page_url force_dl w = (w1, r) ->
  ~ q `prefix_of` artifact E dir ->
  Fs.stat (fs w1) q = Fs.stat (fs w) q.
Proof.
  intros H Hq. pose proof (dir_before_artifact _ Hq) as Hd. exits;
    try done.
  all: repeat match goal with
         | H : Fs.mkdir _ _ = Ok _ |- _ =>
             apply (fun H => mkdir_frame _ _ _ q H Hd) in H
         | H : Fs.unlink _ _ = Ok _ |- _ =>
             apply (fun H => unlink_frame _ _ _ q H Hq) in H
         | H : Fs.write_bytes _ _ _ = Ok _ |- _ =>
             apply (fun H => write_bytes_frame _ _ _ _ q H Hq) in H
         end; congruence.
Qed.

(** X2. A call adds at most two requests to the trace and hands nothing
    to a browser.  The first request is for the page URL; a second one is
    sent only after the page was answered 200 and the comprehension of
    line 52 gave exactly one link, and it is for that link. *)
Theorem fetch_sends_at_most_two page_url force_dl w w1 r :
  get_calendar E dir page_url force_dl w = (w1, r) ->
  launched w1 = launched w /\
  (requests w1 = requests w \/
   requests w1 = (requests w ++ [str_opt page_url])%list \/
   exists page pdf_url,
     http_get E (str_opt page_url) = Some page /\
     status_code page = 200%Z /\
     dl_links_of (find_all_a E (content page)) = Ok [pdf_url] /\
     requests w1 = (requests w ++ [str_opt page_url; pdf_url])%list).
Proof.
  intros H. exits; (split; [done|]).
  all: repeat match goal with
         | H : negb (_ =? _)%Z = false |- _ =>
             apply negb_false_iff, Z.eqb_eq in H
         end.
  all: rewrite <- ?app_assoc.
  all: first [ by left | by right; left
             | right; right; do 2 eexists; by repeat split ].
Qed.

(** Past line 38 the write on line 62 finds the directory in place and the
    artifact absent, so that it cannot raise. *)
Lemma write_after_refresh r d e :
  (exists es, Fs.stat r dir = Some (Fs.Dir es)) ->
  Fs.exists_ r (artifact E dir) = false ->
  Fs.write_bytes r (artifact E dir) d = Raise e -> False.
Proof.
  intros [es Hd] Ha Hw. destruct (write_artifact E dir _ _ d Hd Ha) as [r' Hr].
  congruence.
Qed.

Lemma get_calendar_launches_nothing page_url force_dl w w1 r :
  get_calendar E dir page_url force_dl w = (w1, r) ->
  launched w1 = launched w.
Proof. intros H. by exits. Qed.


(** X4. Either [mkdir] on line 29 raises, and the call raises the same,
    or the target directory is a directory when the call is over: also
    when the call raises later on, nothing undoes the directory. *)
Theorem target_dir_is_made page_url force_dl w w1 r :
  get_calendar E dir page_url force_dl w = (w1, r) ->
  (exists e, Fs.mkdir (fs w) dir = Raise e /\ r = Raise e) \/
  (exists es, Fs.stat (fs w1) dir = Some (Fs.Dir es)).
Proof.
  intros H. destruct (Fs.mkdir (fs w) dir) as [r1|e] eqn:Hmk.
  - right. exits.
    all: try (by eapply write_bytes_keeps_parent).
    all: try (by eapply dir_after_unlink).
    all: by eapply mkdir_is_dir.
  - left. exists e. run. rewrite Hmk in H. by simplify_eq.
Qed.

(** X5. A target directory that is a regular file makes the call raise
    [FileExistsError] at once: nothing is requested, nothing changes. *)
Theorem target_dir_is_a_file page_url force_dl w b :
  Fs.stat (fs w) dir = Some (Fs.File b) ->
  get_calendar E dir page_url force_dl w = (w, Raise FileExistsError).
Proof. intros H. run. by rewrite (mkdir_on_file _ _ _ H). Qed.

(** X6. A directory in the place of the artifact: a forced refresh raises
    [IsADirectoryError] from the deletion on line 36, before any request
    and with nothing changed. *)
Theorem forced_refresh_on_a_directory page_url w es :
  Fs.stat (fs w) (artifact E dir) = Some (Fs.Dir es) ->
  get_calendar E dir page_url true w = (w, Raise IsADirectoryError).
Proof.
  intros Hst.
  assert (Hex : Fs.exists_ (fs w) (artifact E dir) = true)
    by (apply exists_true_stat; eauto).
  pose proof (mkdir_when_cached E dir _ Hex) as Hmk.
  destruct (artifact_not_root E dir) as (a & p & Hp).
  assert (Hu : Fs.unlink (fs w) (artifact E dir) = Raise IsADirectoryError).
  { rewrite Hp in *. by eapply unlink_dir. }
  run.
  repeat (cbn [fs]; first [rewrite Hmk | rewrite Hex | rewrite Hu]).
  by destruct w.
Qed.

(** X7. A forced refresh over a cached file downloads again: with the
    page and the link both answered 200 and one link on the page, the two
    requests go out and the file holds the bytes of the new response,
    whatever it held before. *)
Theorem forced_refresh_downloads_again page_url w old page pdf_url pdf :
  Fs.stat (fs w) (artifact E dir) = Some (Fs.File old) ->
  truthy page_url = true ->
  http_get E (str_opt page_url) = Some page ->
  status_code page = 200%Z ->
  dl_links_of (find_all_a E (content page)) = Ok [pdf_url] ->
  http_get E pdf_url = Some pdf ->
  status_code pdf = 200%Z ->
  exists r',
    get_calendar E dir page_url true w =
    (sent w [str_opt page_url; pdf_url] r', Ok (artifact E dir)) /\
    Fs.stat r' (artifact E dir) = Some (Fs.File (content pdf)).
Proof.
  intros Hst Hurl Hpage Hs%Z.eqb_eq Hl Hp Hs'%Z.eqb_eq.
  assert (Hex : Fs.exists_ (fs w) (artifact E dir) = true)
    by (apply exists_true_stat; eauto).
  pose proof (mkdir_when_cached E dir _ Hex) as Hmk.
  destruct (unlink_artifact E dir _ _ Hst) as (r1 & Hu & Hgone).
  destruct (dir_after_unlink _ _ Hu) as [es Hdir].
  destruct (write_artifact E dir _ _ (content pdf) Hdir Hgone) as [r' Hw].
  exists r'. split; [|by eapply write_bytes_stat].
  unfold sent. run.
  repeat (cbn [fs requests launched negb];
          first [rewrite Hmk | rewrite Hex | rewrite Hu | rewrite Hgone
                | rewrite Hurl | rewrite Hpage | rewrite Hs | rewrite Hl
                | rewrite Hp | rewrite Hs' | rewrite Hw]).
  by rewrite <- app_assoc.
Qed.

(** [unlink] succeeds on regular files only. *)
Lemma unlink_artifact_ok r r' :
  Fs.unlink r (artifact E dir) = Ok r' ->
  exists b, Fs.stat r (artifact E dir) = Some (Fs.File b).
Proof.
  destruct (artifact_not_root E dir) as (a & p & ->). apply unlink_ok_file.
Qed.

(** A forced refresh over a cached file goes on as a call that finds the
    file already gone. *)
Lemma forced_refresh_reduces page_url w b r :
  Fs.stat (fs w) (artifact E dir) = Some (Fs.File b) ->
  Fs.unlink (fs w) (artifact E dir) = Ok r ->
  get_calendar E dir page_url true w
  = get_calendar E dir page_url true (set_fs w r) /\
  Fs.mkdir r dir = Ok r /\
  Fs.exists_ r (artifact E dir) = false.
Proof.
  intros Hst Hu.
  assert (Hex : Fs.exists_ (fs w) (artifact E dir) = true)
    by (apply exists_true_stat; eauto).
  pose proof (mkdir_when_cached E dir _ Hex) as Hmk.
  destruct (unlink_artifact E dir _ _ Hst) as (r1 & Hu1 & Hgone).
  assert (r1 = r) as -> by congruence.
  destruct (dir_after_unlink _ _ Hu) as [es Hdir].
  pose proof (mkdir_present _ _ _ Hdir) as Hmk'.
  split; [|done].
  run.
  repeat (cbn [fs requests launched];
          first [rewrite Hmk | rewrite Hex | rewrite Hu | rewrite Hgone
                | rewrite Hmk']).
  reflexivity.
Qed.

(** X16. A request is sent by those calls only that had a URL to ask and
    got past the cache check: the artifact was absent and the directory
    could be made, or the artifact was a regular file and [force_dl]
    deleted it.  No other call touches the network. *)
Theorem request_only_past_cache_check page_url force_dl w w1 res :
  get_calendar E dir page_url force_dl w = (w1, res) ->
  requests w1 <> requests w ->
  truthy page_url = true /\ exists r, past_cache_check E dir force_dl w r.
Proof.
  intros H Hreq. exits; try done.
  all: repeat match goal with
         | H : negb (truthy _) = false |- _ => apply negb_false_iff in H
         end.
  all: split; [done|].
  all: match goal with
       | Hmk : Fs.mkdir ?r0 dir = Ok ?a, Hu : Fs.unlink ?a _ = Ok ?r |- _ =>
           exists r; right; split; [done|];
           pose proof (mkdir_keeps_artifact E dir _ _ Hmk) as Hk;
           assert (Hc : Fs.exists_ r0 (artifact E dir) = true)
             by congruence;
           pose proof (mkdir_when_cached E dir _ Hc) as Hmk0;
           assert (a = r0) as -> by congruence;
           destruct (unlink_artifact_ok _ _ Hu) as [b Hb]; eauto
       | Hmk : Fs.mkdir ?r0 dir = Ok ?a |- _ =>
           exists a; left; split; [|done];
           rewrite <- (mkdir_keeps_artifact E dir _ _ Hmk); congruence
       end.
Qed.

(** C3, as the code has it: the status gate is [!= 200], not "any 2xx".
    Take any call that gets past the cache check, whether it found the
    artifact absent or deleted it for a forced refresh, and that has a URL
    to ask.  A page or PDF response with a status other than 200 makes it
    raise a [ConnectionError] whose message shows that status code, and
    nothing is written; a page response with status 200 hands over to
    link extraction, and a PDF response with status 200 is stored and the
    artifact path returned. *)
Theorem only_200_proceeds page_url force_dl w r page :
  past_cache_check E dir force_dl w r ->
  truthy page_url = true ->
  http_get E (str_opt page_url) = Some page ->
  (status_code page <> 200%Z ->
   exists msg,
     get_calendar E dir page_url force_dl w =
     (sent w [str_opt page_url] r, Raise (ConnectionError msg)) /\
     str_in (str_int (status_code page)) msg = true) /\
  (status_code page = 200%Z ->
   match dl_links_of (find_all_a E (content page)) with
   | Raise e =>
       get_calendar E dir page_url force_dl w =
       (sent w [str_opt page_url] r, Raise e)
   | Ok [] =>
       get_calendar E dir page_url force_dl w =
       (sent w [str_opt page_url] r, Raise no_links_error)
   | Ok [pdf_url] =>
       match http_get E pdf_url with
       | None =>
           get_calendar E dir page_url force_dl w =
           (sent w [str_opt page_url; pdf_url] r, Raise RequestException)
       | Some pdf =>
           (status_code pdf <> 200%Z ->
            exists msg,
              get_calendar E dir page_url force_dl w =
              (sent w [str_opt page_url; pdf_url] r,
               Raise (ConnectionError msg)) /\
              str_in (str_int (status_code pdf)) msg = true) /\
           (status_code pdf = 200%Z ->
            exists r',
              get_calendar E dir page_url force_dl w =
              (sent w [str_opt page_url; pdf_url] r',
               Ok (artifact E dir)) /\
              Fs.stat r' (artifact E dir) = Some (Fs.File (content pdf)))
       end
   | Ok (_ :: _ :: _) =>
       get_calendar E dir page_url force_dl w =
       (sent w [str_opt page_url] r, Raise multiple_links_error)
   end).
Proof.
  intros [[Habs Hmk]|[-> (b & Hst & Hu)]] Hurl Hpage.
  - by apply status_gate_when_absent.
  - destruct (forced_refresh_reduces page_url w b r Hst Hu)
      as (-> & Hmk & Hgone).
    exact (status_gate_when_absent E dir page_url true (set_fs w r) r page
             Hmk Hgone Hurl Hpage).
Qed.

(** X9. Whenever a call raises [ConnectionError], the last request it
    sent was answered with a status other than 200, and the message shows
    the URL of that request and that status code. *)
Theorem connection_error_shows_url_and_status page_url force_dl w w1 msg :
  get_calendar E dir page_url force_dl w = (w1, Raise (ConnectionError msg)) ->
  exists earlier url response,
    requests w1 = (earlier ++ [url])%list /\
    http_get E url = Some response /\
    status_code response <> 200%Z /\
    str_in url msg = true /\
    str_in (str_int (status_code response)) msg = true.
Proof.
  intros H. exits.
  all: repeat match goal with
         | H : Fs.mkdir _ _ = Raise _ |- _ => apply mkdir_raises in H
         | H : Fs.unlink _ _ = Raise _ |- _ => apply unlink_raises in H
         | H : Fs.write_bytes _ _ _ = Raise _ |- _ =>
             apply write_bytes_raises in H
         | H : dl_links_of _ = Raise _ |- _ => apply dl_links_of_raises in H
         | H : negb (_ =? _)%Z = true |- _ =>
             apply negb_true_iff, Z.eqb_neq in H
         end; try done.
  all: do 3 eexists; split; [reflexivity|]; split; [eassumption|].
  all: split; [done|]; split;
    [ apply str_in_spec; by do 2 eexists
    | do 5 apply str_in_app_l; apply str_in_refl ].
Qed.

End fetcher_effects.


(* ===================================================================== *)
(** ** More about link extraction, messages and the cache key *)

Section extraction.
Implicit Types (links : list tag) (hrefs : list string).

(** X8. The comprehension of line 52 yields a list exactly when that list
    holds the [href] of each anchor whose text contains the marker, in
    page order; it raises exactly when some such anchor has no [href],
    and then what it raises is [KeyError('href')]. *)
Theorem dl_links_of_char links :
  (forall hrefs,
      dl_links_of links = Ok hrefs <->
      Forall2 (fun a href => attrs a !! "href" = Some href)
              (filter (fun a => matches a = true) links) hrefs) /\
  (forall e,
      dl_links_of links = Raise e <->
      e = KeyError "href" /\
      Exists (fun a => matches a = true /\ attrs a !! "href" = None) links).
Proof.
  split.
  - intros hrefs. split; [apply dl_links_of_ok|].
    revert hrefs. induction links as [|a links IH]; intros hrefs.
    + cbn. by intros ->%Forall2_nil_inv_l.
    + rewrite filter_cons. cbn [dl_links_of].
      destruct (decide (matches a = true)) as [Hm|Hm]; unfold matches in Hm.
      * intros (h & hs & Hh & Hf & ->)%Forall2_cons_inv_l.
        by rewrite Hm, Hh, (IH _ Hf).
      * apply not_true_is_false in Hm. rewrite Hm. apply IH.
  - intros e. split.
    + intros H. split; [by eapply dl_links_of_raises|].
      induction links as [|a links IH]; [done|]. cbn [dl_links_of] in H.
      destruct (str_in search_str (text a)) eqn:Hm; [|by right; auto].
      destruct (attrs a !! "href") as [h|] eqn:Hh; [|by left].
      destruct (dl_links_of links); [done|]. right. apply IH. congruence.
    + intros [-> Hex]. induction Hex as [a links [Hm Hh]|a links Hex IH].
      * cbn. unfold matches in Hm. by rewrite Hm, Hh.
      * cbn. destruct (str_in search_str (text a)); [|done].
        destruct (attrs a !! "href"); [|done]. by rewrite IH.
Qed.

Lemma all_chars_app f (s t : string) :
  all_chars f (s ++ t) = all_chars f s && all_chars f t.
Proof.
  induction s as [|c s IH]; [done|].
  rewrite append_cons. cbn [all_chars]. by rewrite IH, andb_assoc.
Qed.

Lemma all_chars_weaken (f g : ascii -> bool) (s : string) :
  (forall c, f c = true -> g c = true) ->
  all_chars f s = true -> all_chars g s = true.
Proof.
  intros Hfg. induction s as [|c s IH]; [done|]. cbn.
  intros [Hc Hs]%andb_true_iff. by rewrite (Hfg _ Hc), IH.
Qed.

Lemma all_digits_all_chars (s : string) :
  all_digits s = true -> all_chars is_digit s = true.
Proof. induction s as [|c s IH]; [done|]. cbn. by intros [-> ->%IH]%andb_true_iff. Qed.

(** X10. A cache key consists of digits and lower-case letters only,
    whatever the date; so the file name built from it holds no ['/'] and
    names an entry of the target directory itself. *)
Theorem cache_key_alphabet (d : datetime) :
  all_chars (fun c => is_digit c || is_lower_letter c) (cache_key d) = true /\
  str_in "/" (cache_file_name d) = false.
Proof.
  assert (Hkey : all_chars (fun c => is_digit c || is_lower_letter c)
                   (cache_key d) = true).
  { rewrite cache_key_unfold, all_chars_app. apply andb_true_iff. split.
    - eapply all_chars_weaken; [|apply all_digits_all_chars,
                                   string_of_uint_digits].
      by intros c ->.
    - by destruct (mon d). }
  split; [done|].
  destruct (str_in "/" (cache_file_name d)) eqn:Hin; [|done].
  apply str_in_spec in Hin as (pre & post & Heq).
  assert (Hall : all_chars (fun c => negb (Ascii.eqb c "/"))
                   (cache_file_name d) = true).
  { unfold cache_file_name. rewrite all_chars_app.
    apply andb_true_iff. split; [|done].
    eapply all_chars_weaken; [|exact Hkey].
    intros c [Hc|Hc]%orb_true_iff; apply negb_true_iff, Ascii.eqb_neq;
      intros ->; done. }
  rewrite Heq, all_chars_app, append_cons in Hall. cbn in Hall.
  by rewrite andb_false_r in Hall.
Qed.

End extraction.

(* ===================================================================== *)
(** ** More about the launcher *)

Section launcher_effects.
Context (E : env) (file : Fs.path) (using_ : option string).
Implicit Types (w : world).

(** The three exits of [open_calendar]. *)
Lemma open_calendar_cases w w1 r :
  open_calendar E file using_ w = (w1, r) ->
  (Fs.exists_ (fs w) file = false /\ w1 = w /\
   exists msg, r = Raise (FileNotFoundError msg)) \/
  (Fs.exists_ (fs w) file = true /\ registry E using_ = None /\ w1 = w /\
   r = Raise (WebbrowserError "could not locate runnable browser")) \/
  (exists b,
      Fs.exists_ (fs w) file = true /\ registry E using_ = Some b /\
      r = Ok tt /\
      w1 = mk_world (fs w) (requests w)
             (launched w ++ [(browser_name b, "file://" ++ path_str file)])).
Proof.
  intros H. run. unfold truthy_browser in H. cbn [negb] in H.
  destruct (Fs.exists_ (fs w) file) eqn:Hex; cbn [negb] in H.
  - destruct (registry E using_) as [b|] eqn:Hr; simplify_eq.
    + right. right. by exists b.
    + right. by left.
  - simplify_eq. left. eauto.
Qed.


(** X12. A controller that turns the request down ([open_new] answers
    [False]) goes unnoticed: the launcher returns [None] as it does when
    the request is accepted. *)
Theorem refused_open_goes_unnoticed w b :
  Fs.exists_ (fs w) file = true ->
  registry E using_ = Some b ->
  accepts b ("file://" ++ path_str file) = false ->
  snd (open_calendar E file using_ w) = Ok tt.
Proof. intros Hex Hr _. by rewrite (open_calendar_launches _ _ _ _ b). Qed.

End launcher_effects.

(* ===================================================================== *)
(** ** The entry point *)

Section entry_point.
Context (E : env) (here : Fs.path) (args : namespace).
Implicit Types (w : world).

Lemma calendar_page_truthy : truthy (Some calendar_page) = true.
Proof. reflexivity. Qed.

(** What a run of the entry point is made of. *)
Lemma main_cases w w1 r :
  main E here args w = (w1, r) ->
  (exists e,
      get_calendar E (target_dir here args) (Some calendar_page)
        (arg_force_dl args) w = (w1, Raise e) /\ r = Raise e) \/
  (exists w',
      get_calendar E (target_dir here args) (Some calendar_page)
        (arg_force_dl args) w
      = (w', Ok (artifact E (target_dir here args))) /\
      Fs.exists_ (fs w') (artifact E (target_dir here args)) = true /\
      open_calendar E (artifact E (target_dir here args))
        (Some (arg_using args)) w' = (w1, r)).
Proof.
  unfold main. fold (target_dir here args). unfold bind at 1.
  destruct (get_calendar E (target_dir here args) (Some calendar_page)
              (arg_force_dl args) w) as [w' [p|e]] eqn:Hget.
  - destruct (get_calendar_ok _ _ _ _ _ _ _ Hget) as [-> Hex].
    intros H. right. eauto.
  - intros [= <- <-]. left. eauto.
Qed.

(** X13. With this month's file cached and no [--force-dl], the entry
    point asks the network nothing and opens the cached file: the only
    change to the world is the one URL handed to the chosen browser. *)
Theorem main_opens_cached_file w b :
  arg_force_dl args = false ->
  Fs.exists_ (fs w) (artifact E (target_dir here args)) = true ->
  registry E (Some (arg_using args)) = Some b ->
  main E here args w =
  (mk_world (fs w) (requests w)
     (launched w ++ [(browser_name b,
                      "file://" ++ path_str (artifact E (target_dir here args)))]),
   Ok tt).
Proof.
  intros Hf Hex Hr. unfold main. fold (target_dir here args).
  unfold bind at 1. rewrite Hf, (get_calendar_cached _ _ _ _ Hex).
  by apply open_calendar_launches.
Qed.


(** X15. When the entry point returns, this month's file is on disk below
    the target directory ([--dir], or [.calendars] next to the script),
    the named browser was found, and exactly one URL went to it: [file://]
    followed by the path of that file. *)
Theorem main_success w w1 :
  main E here args w = (w1, Ok tt) ->
  let file := Fs.join (target_dir here args) (cache_file_name (today E)) in
  (arg_dir args = None ->
   file = (here ++ [".calendars"; cache_file_name (today E)])%list) /\
  Fs.exists_ (fs w1) file = true /\
  exists b,
    registry E (Some (arg_using args)) = Some b /\
    launched w1 =
    (launched w ++ [(browser_name b, ("file://" ++ path_str file)%string)])%list.
Proof.
  intros [(e' & _ & [=])|(w' & Hget & Hex & Hopen)]%main_cases. cbn zeta.
  pose proof (get_calendar_launches_nothing _ _ _ _ _ _ _ Hget) as Hl.
  change (Fs.join (target_dir here args) (cache_file_name (today E)))
    with (artifact E (target_dir here args)).
  split.
  - intros Hnone. unfold artifact, target_dir, Fs.join. rewrite Hnone.
    by rewrite <- app_assoc.
  - apply open_calendar_cases in Hopen
      as [(_ & _ & msg & [=])|[(_ & _ & _ & [=])|(b & _ & Hr & _ & ->)]].
    cbn [fs launched]. split; [done|]. exists b. by rewrite Hl.
Qed.

End entry_point.

(* ===================================================================== *)
(** ** The further statements on concrete runs *)

Lemma fetch_touches_only_its_path_witness :
  let w1 := fst (get_calendar Sample.good Sample.dir (Some Sample.page_url)
                   true Scene.last_month) in
  Fs.stat (fs w1) ["home"; "calendars"; "2024june.pdf"]
  = Some (Fs.File Sample.pdf_body) /\
  Fs.stat (fs w1) ["home"; "calendars"; "2024may.pdf"]
  = Fs.stat (fs Scene.last_month) ["home"; "calendars"; "2024may.pdf"].
Proof.
  intros w1. split; [vm_compute; reflexivity|].
  refine (fetch_touches_only_its_path Sample.good Sample.dir
            (Some Sample.page_url) true Scene.last_month w1
            (Ok ["home"; "calendars"; "2024june.pdf"])
            ["home"; "calendars"; "2024may.pdf"] _ _).
  - vm_compute. reflexivity.
  - intros [k Hk]. vm_compute in Hk. discriminate.
Defined.

Lemma fetch_sends_at_most_two_witness :
  let w1 := fst (get_calendar Sample.good Sample.dir (Some Sample.page_url)
                   false Sample.empty) in
  launched w1 = [] /\
  (requests w1 = [] \/
   requests w1 = [Sample.page_url] \/
   exists page pdf_url,
     http_get Sample.good Sample.page_url = Some page /\
     status_code page = 200%Z /\
     dl_links_of (find_all_a Sample.good (content page)) = Ok [pdf_url] /\
     requests w1 = [Sample.page_url; pdf_url]).
Proof.
  intros w1.
  refine (fetch_sends_at_most_two Sample.good Sample.dir
            (Some Sample.page_url) false Sample.empty w1
            (Ok ["home"; "calendars"; "2024june.pdf"]) _).
  vm_compute. reflexivity.
Defined.

Lemma target_dir_is_made_witness :
  let run := get_calendar Sample.good Sample.dir None false Sample.empty in
  snd run = Raise no_url_error /\
  ((exists e, Fs.mkdir (fs Sample.empty) Sample.dir = Raise e /\
              Raise (A := Fs.path) no_url_error = Raise e) \/
   exists es, Fs.stat (fs (fst run)) Sample.dir = Some (Fs.Dir es)).
Proof.
  intros run. split; [vm_compute; reflexivity|].
  refine (target_dir_is_made Sample.good Sample.dir None false Sample.empty
            (fst run) (Raise no_url_error) _).
  vm_compute. reflexivity.
Defined.

Lemma target_dir_is_a_file_witness :
  get_calendar Sample.good Sample.dir (Some Sample.page_url) false
    Scene.dir_is_file
  = (Scene.dir_is_file, Raise FileExistsError).
Proof.
  refine (target_dir_is_a_file Sample.good Sample.dir (Some Sample.page_url)
            false Scene.dir_is_file (list_byte_of_string "notes") _).
  vm_compute. reflexivity.
Defined.

Lemma forced_refresh_on_a_directory_witness :
  get_calendar Sample.good Sample.dir (Some Sample.page_url) true
    Scene.artifact_is_dir
  = (Scene.artifact_is_dir, Raise IsADirectoryError).
Proof.
  refine (forced_refresh_on_a_directory Sample.good Sample.dir
            (Some Sample.page_url) Scene.artifact_is_dir ∅ _).
  vm_compute. reflexivity.
Defined.

Lemma forced_refresh_downloads_again_witness :
  exists r',
    get_calendar Sample.good Sample.dir (Some Sample.page_url) true
      Scene.stale
    = (sent Scene.stale [Sample.page_url; Sample.pdf_url] r',
       Ok (artifact Sample.good Sample.dir)) /\
    Fs.stat r' (artifact Sample.good Sample.dir)
    = Some (Fs.File Sample.pdf_body).
Proof.
  refine (forced_refresh_downloads_again Sample.good Sample.dir
            (Some Sample.page_url) Scene.stale (list_byte_of_string "old")
            (mk_response 200 Sample.page_body) Sample.pdf_url
            (mk_response 200 Sample.pdf_body) _ _ _ _ _ _ _).
  all: vm_compute; reflexivity.
Defined.


Lemma refused_open_goes_unnoticed_witness :
  let file := ["home"; "calendars"; "2024june.pdf"] in
  accepts Scene.refusing ("file://" ++ path_str file) = false /\
  snd (open_calendar Scene.good_refusing file (Some "firefox") Sample.cached)
  = Ok tt.
Proof.
  intros file. split; [reflexivity|].
  refine (refused_open_goes_unnoticed Scene.good_refusing file
            (Some "firefox") Sample.cached Scene.refusing _ _ _).
  - vm_compute. reflexivity.
  - reflexivity.
  - reflexivity.
Defined.

Lemma main_opens_cached_file_witness :
  main Sample.good Scene.here no_options Scene.installed
  = (mk_world (fs Scene.installed) []
       [("firefox", "file:///opt/ywa/.calendars/2024june.pdf")],
     Ok tt).
Proof.
  refine (main_opens_cached_file Sample.good Scene.here no_options
            Scene.installed Sample.firefox _ _ _).
  - reflexivity.
  - vm_compute. reflexivity.
  - reflexivity.
Defined.


Lemma main_success_witness :
  let w1 := fst (main Sample.good Scene.here no_options Sample.empty) in
  Fs.stat (fs w1) ["opt"; "ywa"; ".calendars"; "2024june.pdf"]
  = Some (Fs.File Sample.pdf_body) /\
  requests w1 = [calendar_page; Sample.pdf_url] /\
  exists b,
    registry Sample.good (Some "firefox") = Some b /\
    launched w1 =
    [(browser_name b, "file:///opt/ywa/.calendars/2024june.pdf")].
Proof.
  intros w1. split; [vm_compute; reflexivity|].
  split; [vm_compute; reflexivity|].
  refine (proj2 (proj2 (main_success Sample.good Scene.here no_options
                          Sample.empty w1 _))).
  vm_compute. reflexivity.
Defined.

Lemma only_200_proceeds_witness :
  let E := Sample.server 404 200 [Sample.anchor (Some Sample.pdf_url)] in
  exists msg,
    get_calendar E Sample.dir (Some Sample.page_url) true Sample.cached
    = (sent Sample.cached [Sample.page_url]
         (Fs.Dir {[ "home" := Fs.Dir {[ "calendars" := Fs.Dir ∅ ]} ]}),
       Raise (ConnectionError msg)) /\
    str_in "404" msg = true.
Proof.
  intros E.
  refine (proj1 (only_200_proceeds E Sample.dir (Some Sample.page_url) true
                   Sample.cached _ (mk_response 404 Sample.page_body)
                   _ _ _) _).
  - right. split; [reflexivity|]. exists Sample.pdf_body.
    split; vm_compute; reflexivity.
  - reflexivity.
  - vm_compute. reflexivity.
  - cbn. discriminate.
Defined.

Lemma connection_error_shows_url_and_status_witness :
  let E := Sample.server 200 500 [Sample.anchor (Some Sample.pdf_url)] in
  let run := get_calendar E Sample.dir (Some Sample.page_url) false
               Sample.empty in
  exists earlier url response,
    requests (fst run) = (earlier ++ [url])%list /\
    http_get E url = Some response /\
    status_code response <> 200%Z /\
    str_in url
      ("Failed to download PDF from 'https://example.com/cal.pdf'"
       ++ LF ++ "Status code: 500") = true /\
    str_in (str_int (status_code response))
      ("Failed to download PDF from 'https://example.com/cal.pdf'"
       ++ LF ++ "Status code: 500") = true.
Proof.
  intros E run.
  refine (connection_error_shows_url_and_status E Sample.dir
            (Some Sample.page_url) false Sample.empty (fst run) _ _).
  vm_compute. reflexivity.
Defined.

Lemma request_only_past_cache_check_witness :
  truthy (Some Sample.page_url) = true /\
  exists r, past_cache_check Sample.good Sample.dir true Scene.stale r.
Proof.
  refine (request_only_past_cache_check Sample.good Sample.dir
            (Some Sample.page_url) true Scene.stale
            (fst (get_calendar Sample.good Sample.dir (Some Sample.page_url)
                    true Scene.stale))
            (Ok ["home"; "calendars"; "2024june.pdf"]) _ _).
  - vm_compute. reflexivity.
  - vm_compute. discriminate.
Defined.
